(** * EZVenv: a shallow embedding of [ezvenv/core.py] and [ezvenv/cli.py]

    The program is sequential orchestration of operating-system calls
    (file-existence checks, prompts, child processes, process-image
    replacement).  The embedding therefore has three layers:

    - [Host]: the interpreter, the operating system and the third-party
      libraries (PyYAML, json) as an explicit interface.  Nothing is assumed
      about a host; every theorem below holds for all of them.
    - [M]: a state-and-outcome monad over a [world] (OS state, environment
      variables, pending terminal input, event trace).  An action ends by
      returning, raising, [sys.exit] or a successful [os.execv].
    - the functions of [core.py], translated statement by statement.

    A small concrete host ([TestHost]) is given at the end of the
    definitions; it is used to run the functions on concrete inputs.

    Strings are byte strings; [lower] and [strip] act on ASCII letters and
    ASCII white space.  Argument parsing and the set-up of the logging
    module are not modelled. *)

From stdpp Require Import gmap strings list fin_maps.
From Stdlib Require Import ZArith Ascii DecimalString.

Set Default Proof Using "Type".


(** ** Python values and strings *)

(** The values a YAML or JSON document can hold, as far as the program can
    tell them apart. *)
#[warnings="-register-all"]
Inductive pyval :=
| VNone
| VBool (b : bool)
| VInt (n : Z)
| VStr (s : string)
| VList (xs : list pyval)
| VDict (m : gmap string pyval).

(** Python truthiness, as used by [x or y] and [if x:]. *)
Definition truthy (v : pyval) : bool :=
  match v with
  | VNone => false
  | VBool b => b
  | VInt n => negb (n =? 0)%Z
  | VStr s => negb (String.eqb s "")
  | VList xs => match xs with [] => false | _ :: _ => true end
  | VDict m => negb (bool_decide (m = ∅))
  end.

(** An optional [str] argument ([None] by default); [arg_given a] is the
    argument when it is truthy. *)
Definition arg_given (a : option string) : option string :=
  match a with
  | Some s => if String.eqb s "" then None else Some s
  | None => None
  end.

(** [v != s] for a string literal [s]. *)
Definition py_ne_str (v : pyval) (s : string) : bool :=
  match v with
  | VStr t => negb (String.eqb t s)
  | _ => true
  end.

Fixpoint as_strs (vs : list pyval) : option (list string) :=
  match vs with
  | [] => Some []
  | VStr s :: r => match as_strs r with Some l => Some (s :: l) | None => None end
  | _ :: _ => None
  end.

(** [s.endswith(suf)] *)
Definition endswith (s suf : string) : bool :=
  String.prefix (String.rev suf) (String.rev s).

(** [needle in hay] on strings *)
Fixpoint contains (needle hay : string) : bool :=
  String.prefix needle hay ||
  match hay with
  | EmptyString => false
  | String _ t => contains needle t
  end.

Definition ascii_lower (c : ascii) : ascii :=
  let n := nat_of_ascii c in
  if (65 <=? n)%nat && (n <=? 90)%nat then ascii_of_nat (n + 32) else c.

(** [s.lower()] *)
Fixpoint lower (s : string) : string :=
  match s with
  | EmptyString => EmptyString
  | String c t => String (ascii_lower c) (lower t)
  end.

Definition isspace (c : ascii) : bool :=
  let n := nat_of_ascii c in
  ((9 <=? n)%nat && (n <=? 13)%nat) || ((28 <=? n)%nat && (n <=? 32)%nat).

Fixpoint lstrip (s : string) : string :=
  match s with
  | EmptyString => EmptyString
  | String c t => if isspace c then lstrip t else s
  end.

(** [s.strip()] *)
Definition strip (s : string) : string :=
  String.rev (lstrip (String.rev (lstrip s))).

(** [x in l] for a list of string literals *)
Definition str_in (x : string) (l : list string) : bool :=
  existsb (String.eqb x) l.

Definition decimal (n : nat) : string :=
  NilZero.string_of_uint (Nat.to_uint n).

(** ** Exceptions, events, outcomes *)

Inductive exn :=
| CalledProcessError (cmd : list string) (code : Z)
| OSError (msg : string)
| ParseError (msg : string)
| EOFError
| TypeError (msg : string)
| AttributeError (msg : string).

Inductive level := INFO | ERROR.

(** What the process does to the outside, in order. [EvExec] carries the
    environment the new process image would inherit. *)
Inductive event :=
| EvPrint (s : string)
| EvLog (lvl : level) (s : string)
| EvInput (prompt answer : string)
| EvMakedirs (p : string)
| EvChdir (p : string)
| EvParse (p : string)
| EvWrite (p content : string)
| EvRun (argv : list string)
| EvSetenv (k v : string)
| EvExec (path : string) (argv : list string) (env : gmap string string).

Inductive spawn_result :=
| Exited (code : Z)
| SpawnFailed (msg : string).

Inductive outcome (A : Type) :=
| Ret (a : A)
| Raise (e : exn)
| Exit (code : Z)
| Replaced.
Arguments Ret {A} a.
Arguments Raise {A} e.
Arguments Exit {A} code.
Arguments Replaced {A}.

(** The exit status of the interpreter for an outcome of the main program:
    0 on normal return, the argument of [sys.exit], 1 for an uncaught
    exception; a replaced process has no status of its own. *)
Definition exit_status {A} (r : outcome A) : option Z :=
  match r with
  | Ret _ => Some 0%Z
  | Raise _ => Some 1%Z
  | Exit c => Some c
  | Replaced => None
  end.

(** ** The host interface *)

Record Host := {
  OS : Type;
  (* interpreter constants *)
  os_name : string;
  os_pathsep : string;
  sys_executable : string;
  sys_argv : list string;
  sys_version_info : nat * nat;
  expanduser_home : string;
  py_str : pyval -> string;
  exn_str : exn -> string;
  (* os.path *)
  path_join : list string -> string;
  path_abspath : OS -> string -> string;
  (* the file system *)
  os_getcwd : OS -> string;
  os_exists : OS -> string -> bool;
  os_listdir : OS -> string -> exn + list string;
  os_makedirs : OS -> string -> option exn * OS;
  os_chdir : OS -> string -> exn + OS;
  os_open_r : OS -> string -> option exn;
  os_read : OS -> string -> exn + string;
  os_write : OS -> string -> string -> option exn * OS;
  (* json and PyYAML *)
  json_loads : string -> exn + pyval;
  yaml_safe_load : string -> exn + pyval;
  yaml_dump : pyval -> string;
  (* processes *)
  shutil_which : OS -> gmap string string -> string -> option string;
  spawn : OS -> gmap string string -> list string -> spawn_result * OS;
  os_execv : OS -> gmap string string -> string -> list string -> option exn;
}.

Section Core.
Context (H : Host).

Record world := World {
  w_os : OS H;
  w_environ : gmap string string;
  w_stdin : list string;
  w_trace : list event;
}.

Definition emit (ev : event) (w : world) : world :=
  World (w_os w) (w_environ w) (w_stdin w) (w_trace w ++ [ev]).

Definition set_os (o : OS H) (w : world) : world :=
  World o (w_environ w) (w_stdin w) (w_trace w).

(** ** The monad *)

Definition M (A : Type) : Type := world -> outcome A * world.

Definition ret {A} (a : A) : M A := fun w => (Ret a, w).

Definition bind {A B} (m : M A) (k : A -> M B) : M B := fun w =>
  match m w with
  | (Ret a, w') => k a w'
  | (Raise e, w') => (Raise e, w')
  | (Exit c, w') => (Exit c, w')
  | (Replaced, w') => (Replaced, w')
  end.

Notation "'let!' x ':=' m 'in' k" := (bind m (fun x => k))
  (at level 10, x name, m at level 100, k at level 200).
Notation "m '>>' k" := (bind m (fun _ => k))
  (at level 90, right associativity).

Definition raise {A} (e : exn) : M A := fun w => (Raise e, w).

(** [sys.exit(code)]: [SystemExit] is not an [Exception], so no handler of
    this program catches it. *)
Definition sys_exit {A} (code : Z) : M A := fun w => (Exit code, w).

(** [try: m  except <cls> as e: h e] *)
Definition try_except {A} (m : M A) (h : exn -> option (M A)) : M A := fun w =>
  match m w with
  | (Raise e, w') =>
      match h e with
      | Some k => k w'
      | None => (Raise e, w')
      end
  | r => r
  end.

Definition except_Exception {A} (k : exn -> M A) : exn -> option (M A) :=
  fun e => Some (k e).

Definition except_CalledProcessError {A} (k : exn -> M A) : exn -> option (M A) :=
  fun e => match e with
           | CalledProcessError _ _ => Some (k e)
           | _ => None
           end.

Fixpoint for_each {A} (xs : list A) (body : A -> M unit) : M unit :=
  match xs with
  | [] => ret tt
  | x :: r => body x >> for_each r body
  end.

(** ** Primitives *)

Definition print (s : string) : M unit := fun w => (Ret tt, emit (EvPrint s) w).

Definition logging_info (s : string) : M unit := fun w =>
  (Ret tt, emit (EvLog INFO s) w).

Definition logging_error (s : string) : M unit := fun w =>
  (Ret tt, emit (EvLog ERROR s) w).

(** [input(prompt)]: the next pending line, [EOFError] when there is none. *)
Definition input (prompt : string) : M string := fun w =>
  match w_stdin w with
  | [] => (Raise EOFError, w)
  | a :: rest =>
      (Ret a, World (w_os w) (w_environ w) rest (w_trace w ++ [EvInput prompt a]))
  end.

Definition environ_get (k : string) : M (option string) := fun w =>
  (Ret (w_environ w !! k), w).

Definition environ_set (k v : string) : M unit := fun w =>
  (Ret tt, World (w_os w) (<[k := v]> (w_environ w)) (w_stdin w)
                 (w_trace w ++ [EvSetenv k v])).

Definition getcwd : M string := fun w => (Ret (os_getcwd H (w_os w)), w).

Definition abspath (p : string) : M string := fun w =>
  (Ret (path_abspath H (w_os w) p), w).

Definition path_exists (p : string) : M bool := fun w =>
  (Ret (os_exists H (w_os w) p), w).

Definition listdir (p : string) : M (list string) := fun w =>
  match os_listdir H (w_os w) p with
  | inr l => (Ret l, w)
  | inl e => (Raise e, w)
  end.

(** [os.makedirs(p, exist_ok=True)] *)
Definition makedirs (p : string) : M unit := fun w =>
  let '(r, o) := os_makedirs H (w_os w) p in
  let w' := emit (EvMakedirs p) (set_os o w) in
  match r with
  | None => (Ret tt, w')
  | Some e => (Raise e, w')
  end.

Definition chdir (p : string) : M unit := fun w =>
  match os_chdir H (w_os w) p with
  | inr o => (Ret tt, emit (EvChdir p) (set_os o w))
  | inl e => (Raise e, w)
  end.

(** [open(p, "r")] *)
Definition open_r (p : string) : M unit := fun w =>
  match os_open_r H (w_os w) p with
  | None => (Ret tt, w)
  | Some e => (Raise e, w)
  end.

(** [json.load(file)] and [yaml.safe_load(file)] on the file opened at [p]:
    read it, then parse the text. *)
Definition load_with (parse : string -> exn + pyval) (p : string) : M pyval := fun w =>
  let w' := emit (EvParse p) w in
  match os_read H (w_os w) p with
  | inl e => (Raise e, w')
  | inr text =>
      match parse text with
      | inl e => (Raise e, w')
      | inr v => (Ret v, w')
      end
  end.

Definition json_load : string -> M pyval := load_with (json_loads H).
Definition yaml_load : string -> M pyval := load_with (yaml_safe_load H).

(** [with open(p, "w") as file: yaml.dump(data, file, ...)] *)
Definition yaml_dump_to (p : string) (data : pyval) : M unit := fun w =>
  let text := yaml_dump H data in
  let '(r, o) := os_write H (w_os w) p text in
  let w' := emit (EvWrite p text) (set_os o w) in
  match r with
  | None => (Ret tt, w')
  | Some e => (Raise e, w')
  end.

Definition which (tool : string) : M (option string) := fun w =>
  (Ret (shutil_which H (w_os w) (w_environ w) tool), w).

(** [subprocess.run(args, check=True)] *)
Definition subprocess_run (args : list pyval) : M unit := fun w =>
  match as_strs args with
  | None => (Raise (TypeError "expected str, bytes or os.PathLike object"), w)
  | Some argv =>
      let '(r, o) := spawn H (w_os w) (w_environ w) argv in
      let w' := emit (EvRun argv) (set_os o w) in
      match r with
      | Exited 0 => (Ret tt, w')
      | Exited c => (Raise (CalledProcessError argv c), w')
      | SpawnFailed msg => (Raise (OSError msg), w')
      end
  end.

(** [os.execv(path, argv)]: on success the process image is replaced and
    nothing of this program runs any more. *)
Definition execv (path : string) (argv : list string) : M unit := fun w =>
  let w' := emit (EvExec path argv (w_environ w)) w in
  match os_execv H (w_os w) (w_environ w) path argv with
  | None => (Replaced, w')
  | Some e => (Raise e, w')
  end.

(** ** Module level *)

Definition HOME_DIR : string := expanduser_home H.
Definition CONFIG_DIR : string := path_join H [HOME_DIR; ".EZVenv"].
Definition ACTIVATED : string := "EZVENV_ALREADY_ACTIVATED".

(** The statements run when the module is imported, before any function
    below: the per-user config directory is created when missing.  (Logging
    is then pointed at a file inside it; log records are [EvLog] events.) *)
Definition module_import : M unit :=
  let! found := path_exists CONFIG_DIR in
  if negb found then makedirs CONFIG_DIR else ret tt.

(** ** class EZVenv *)

Record EZVenv := {
  configFile : string;
  config : pyval;
  envName : pyval;
  envDir : string;
  pythonVer : pyval;
  envPath : string;
  pkgManager : pyval;
  autoInstall : pyval;
  autoUpdate : pyval;
  autoActivate : bool;
}.

(** [self.config.get(k, d)] *)
Definition config_get (c : pyval) (k : string) (d : pyval) : M pyval :=
  match c with
  | VDict m => ret (default d (m !! k))
  | _ => raise (AttributeError "object has no attribute 'get'")
  end.

Definition load_config (configFile : string) : M pyval :=
  let! found := path_exists configFile in
  if found then
    try_except
      (open_r configFile >>
       let! config :=
         (if endswith configFile ".json" then json_load configFile
          else if endswith configFile ".yaml" || endswith configFile ".yml"
               then yaml_load configFile
               else ret (VDict ∅)) in
       logging_info ("Configuration loaded from " +:+ configFile) >>
       ret (if truthy config then config else VDict ∅))
      (except_Exception (fun e =>
         logging_error ("Error loading config file: " +:+ exn_str H e) >>
         print "⚠️ Error reading config file. Using default settings." >>
         ret (VDict ∅)))
  else
    logging_info ("No config file found at " +:+ configFile +:+
                  ". Using default settings.") >>
    ret (VDict ∅).

(** The dictionary written by [save_config]. *)
Definition config_data (self : EZVenv) : gmap string pyval :=
  <["envName" := envName self]>
  (<["envDir" := VStr (envDir self)]>
  (<["pythonVer" := pythonVer self]>
  (<["autoInstall" := autoInstall self]>
  (<["autoUpdate" := autoUpdate self]>
  (<["pkgManager" := pkgManager self]> ∅))))).

Definition save_config (self : EZVenv) : M unit :=
  try_except
    (yaml_dump_to (configFile self) (VDict (config_data self)) >>
     logging_info ("Configuration saved to " +:+ configFile self))
    (except_Exception (fun e =>
       logging_error ("Failed to save configuration: " +:+ exn_str H e) >>
       print "❌ Failed to save configuration.")).

Definition detect_pkg_manager (config : pyval) : M pyval :=
  let! manager := config_get config "pkgManager" (VStr "auto") in
  if py_ne_str manager "auto" then ret manager
  else
    let! poetry := which "poetry" in
    if bool_decide (is_Some (arg_given poetry)) then ret (VStr "poetry")
    else
      let! pipenv := which "pipenv" in
      if bool_decide (is_Some (arg_given pipenv)) then ret (VStr "pipenv")
      else ret (VStr "pip").

(** [os.path.join(self.envDir, self.envName)] *)
Definition join_env_path (envDir : string) (envName : pyval) : M string :=
  match envName with
  | VStr n => ret (path_join H [envDir; n])
  | _ => raise (TypeError "expected str, bytes or os.PathLike object")
  end.

Definition EZVenv__init__ (config_file env_name env_dir python_ver : option string)
    (save_defaults auto_activate : bool) : M EZVenv :=
  let configFile :=
    match arg_given config_file with
    | Some f => f
    | None => path_join H [CONFIG_DIR; "ezvenv.yaml"]
    end in
  let! config := load_config configFile in
  let! envName :=
    match arg_given env_name with
    | Some n => ret (VStr n)
    | None => config_get config "envName" (VStr ".venv")
    end in
  let! dir :=
    match arg_given env_dir with
    | Some d => ret d
    | None => getcwd
    end in
  let! envDir := abspath dir in
  let! pythonVer :=
    match arg_given python_ver with
    | Some p => ret (VStr p)
    | None => config_get config "pythonVer" (VStr (sys_executable H))
    end in
  let! envPath := join_env_path envDir envName in
  let! pkgManager := detect_pkg_manager config in
  let! autoInstall := config_get config "autoInstall" (VBool true) in
  let! autoUpdate := config_get config "autoUpdate" (VBool true) in
  let self := {| configFile := configFile; config := config;
                 envName := envName; envDir := envDir;
                 pythonVer := pythonVer; envPath := envPath;
                 pkgManager := pkgManager; autoInstall := autoInstall;
                 autoUpdate := autoUpdate; autoActivate := auto_activate |} in
  (if save_defaults then save_config self else ret tt) >>
  ret self.

Definition _get_executable_path (self : EZVenv) (executable : string) : string :=
  if String.eqb (os_name H) "nt"
  then path_join H [envPath self; "Scripts"; executable +:+ ".exe"]
  else path_join H [envPath self; "bin"; executable].

Definition update_core_components (self : EZVenv) : M unit :=
  let core_packages := ["pip"; "setuptools"; "pyyaml"] in
  print "🔄 Updating core components..." >>
  let pip_executable := _get_executable_path self "pip" in
  for_each core_packages (fun package =>
    try_except
      (subprocess_run [VStr pip_executable; VStr "install"; VStr "--upgrade";
                       VStr package])
      (except_CalledProcessError (fun e =>
         logging_error ("Failed to update package " +:+ package +:+ ": " +:+
                        exn_str H e) >>
         print ("❌ Failed to update " +:+ package +:+ ".")))) >>
  print "✅ Core components updated.".

Definition create_env (self : EZVenv) : M unit :=
  let! found := path_exists (envPath self) in
  (if found then
     logging_info ("Virtual environment already exists at " +:+ envPath self) >>
     print ("✅ Virtual environment already exists at " +:+ envPath self +:+ ".")
   else
     try_except
       (logging_info ("Creating virtual environment at " +:+ envPath self +:+
                      " using Python " +:+ py_str H (pythonVer self) +:+ ".") >>
        print ("🔧 Creating virtual environment at " +:+ envPath self +:+
               " using Python " +:+ py_str H (pythonVer self) +:+ "...") >>
        subprocess_run [pythonVer self; VStr "-m"; VStr "venv";
                        VStr (envPath self)])
       (except_CalledProcessError (fun e =>
          logging_error ("Failed to create virtual environment: " +:+
                         exn_str H e) >>
          print "❌ Failed to create virtual environment." >>
          sys_exit 1))) >>
  print ("🟢 Virtual environment is ready: " +:+ envPath self) >>
  update_core_components self.

Definition install_deps (self : EZVenv) : M unit :=
  let reqPath := path_join H [envDir self; "requirements.txt"] in
  let pip_executable := _get_executable_path self "pip" in
  let! found := path_exists reqPath in
  if found then
    print ("📦 Installing dependencies from " +:+ reqPath +:+ "...") >>
    try_except
      (subprocess_run [VStr pip_executable; VStr "install"; VStr "-r";
                       VStr reqPath] >>
       logging_info "Dependencies installed successfully.")
      (except_CalledProcessError (fun e =>
         logging_error ("Failed to install dependencies: " +:+ exn_str H e) >>
         print "❌ Failed to install dependencies."))
  else
    print "⚠️ No requirements.txt found in the project directory. Skipping dependency installation.".

Definition update_deps (self : EZVenv) : M unit :=
  let reqPath := path_join H [envDir self; "requirements.txt"] in
  let pip_executable := _get_executable_path self "pip" in
  let! found := path_exists reqPath in
  if negb found then
    print "⚠️ No requirements.txt found. Skipping update." >>
    logging_info ("No requirements.txt found at " +:+ reqPath +:+
                  ". Skipping dependency update.")
  else
    print "🔄 Updating dependencies..." >>
    try_except
      (subprocess_run [VStr pip_executable; VStr "install"; VStr "--upgrade";
                       VStr "-r"; VStr reqPath] >>
       logging_info ("Dependencies updated successfully using " +:+ reqPath))
      (except_CalledProcessError (fun e =>
         logging_error ("Failed to update dependencies: " +:+ exn_str H e) >>
         print "❌ Failed to update dependencies.")).

Definition activate_env (self : EZVenv) : M unit :=
  let env_python := _get_executable_path self "python" in
  let! current_executable := abspath (sys_executable H) in
  let master_env := path_join H [expanduser_home H; ".EZVenv"; "EZVenv-Master"] in
  (if contains master_env current_executable then
     print "It is detected you are currently in the master EZVenv environment." >>
     print ("New environment to be activated: " +:+ envPath self) >>
     print "Choose an option:" >>
     print "  1) Deactivate the master environment and then activate the new environment." >>
     print "  2) Activate the new environment on top of the master environment." >>
     print "  3) Do nothing (abort activation)." >>
     let! answer := input "Enter 1, 2, or 3: " in
     let choice := strip answer in
     if String.eqb choice "3" then
       print "No changes made. Exiting activation." >>
       sys_exit 0
     else if String.eqb choice "1" then
       print "Deactivating master environment and starting new shell with the new environment..." >>
       let new_activate_script := path_join H [envPath self; "bin"; "activate"] in
       environ_set ACTIVATED "1" >>
       execv "/bin/bash"
             ["/bin/bash"; "-c";
              "source " +:+ new_activate_script +:+ " && exec bash"]
     else if String.eqb choice "2" then
       print "Proceeding to activate the new environment on top of the master environment..." >>
       environ_set ACTIVATED "1" >>
       try_except
         (execv env_python (env_python :: sys_argv H))
         (except_Exception (fun e =>
            print ("❌ Failed to activate virtual environment: " +:+ exn_str H e) >>
            sys_exit 1))
     else
       print "Invalid choice. Exiting." >>
       sys_exit 0
   else ret tt) >>
  let! here := abspath (sys_executable H) in
  let! there := abspath env_python in
  if negb (String.eqb here there) then
    try_except
      (subprocess_run [VStr env_python; VStr "-c"; VStr "import ezvenv"])
      (except_CalledProcessError (fun _ =>
         print "🔄 Adding master environment's site-packages to PYTHONPATH for auto-activation..." >>
         let python_version :=
           "python" +:+ decimal (fst (sys_version_info H)) +:+ "." +:+
           decimal (snd (sys_version_info H)) in
         let master_site_packages :=
           path_join H [master_env; "lib"; python_version; "site-packages"] in
         let! found := path_exists master_site_packages in
         if found then
           let! pp := environ_get "PYTHONPATH" in
           let current_pythonpath := default "" pp in
           environ_set "PYTHONPATH"
             (master_site_packages +:+
              (if negb (String.eqb current_pythonpath "")
               then os_pathsep H +:+ current_pythonpath else ""))
         else
           print "❌ Master environment site-packages not found. Please ensure EZVenv is installed in the master environment." >>
           sys_exit 1)) >>
    print ("🔄 Activating virtual environment using " +:+ env_python +:+ " ...") >>
    environ_set ACTIVATED "1" >>
    try_except
      (execv env_python (env_python :: sys_argv H))
      (except_Exception (fun e =>
         print ("❌ Failed to activate virtual environment: " +:+ exn_str H e) >>
         sys_exit 1))
  else
    print ("✅ New environment activated: " +:+ envPath self).

Definition setup_env (self : EZVenv) : M unit :=
  create_env self >>
  print ("🔗 Preparing to activate environment: " +:+ envPath self) >>
  install_deps self >>
  update_deps self >>
  logging_info "Environment setup completed successfully." >>
  if autoActivate self then activate_env self
  else print "ℹ️ Auto-activation is disabled. Please activate the virtual environment manually if needed.".

(** ** init_env *)

(** [answer.lower() not in ["y", "yes", ""]] *)
Definition declined (answer : string) : bool :=
  negb (str_in (lower answer) ["y"; "yes"; ""]).

(** The block under the comment "Directory preparation": it yields the
    [env_dir] and [config_file] handed to the constructor. *)
Definition init_env_directory_preparation (env_dir config_file : option string)
    : M (string * string) :=
  match arg_given env_dir with
  | Some env_dir =>
      let! found := path_exists env_dir in
      (if negb found then
         print ("Directory '" +:+ env_dir +:+ "' does not exist. Creating it...") >>
         makedirs env_dir
       else
         let! entries := listdir env_dir in
         match entries with
         | _ :: _ =>
             let! answer := input ("Directory '" +:+ env_dir +:+
               "' is not empty. Are you sure you want to initialize it? (Y/n): ") in
             if declined answer then
               print "Initialization aborted." >>
               sys_exit 0
             else ret tt
         | [] => ret tt
         end) >>
      chdir env_dir >>
      match arg_given config_file with
      | None =>
          let! cwd := getcwd in
          ret (env_dir, path_join H [cwd; "ezvenv.yaml"])
      | Some config_file =>
          let! found := path_exists config_file in
          (if found then
             let! answer := input ("Configuration file '" +:+ config_file +:+
               "' already exists. Overwrite? (Y/n): ") in
             if declined answer then
               print "Initialization aborted due to existing configuration." >>
               sys_exit 0
             else ret tt
           else ret tt) >>
          ret (env_dir, config_file)
      end
  | None =>
      let! env_dir := getcwd in
      match arg_given config_file with
      | None => ret (env_dir, path_join H [env_dir; "ezvenv.yaml"])
      | Some config_file =>
          let! found := path_exists config_file in
          (if found then
             let! answer := input ("Configuration file '" +:+ config_file +:+
               "' already exists. Overwrite? (Y/n): ") in
             if declined answer then
               print "Initialization aborted due to existing configuration." >>
               sys_exit 0
             else ret tt
           else ret tt) >>
          ret (env_dir, config_file)
      end
  end.

(** The block under the comment "Environment Setup". *)
Definition init_env_environment_setup (env_name python_ver : option string)
    (save_defaults auto_activate : bool) (env_dir config_file : string) : M string :=
  let! env := EZVenv__init__ (Some config_file) env_name (Some env_dir) python_ver
                             save_defaults auto_activate in
  setup_env env >>
  ret (envPath env).

Definition init_env (env_name env_dir python_ver config_file : option string)
    (save_defaults auto_activate : bool) : M string :=
  let! marker := environ_get ACTIVATED in
  if bool_decide (marker = Some "1") then
    print "Environment already activated, skipping re-initialization." >>
    getcwd
  else
    let! prepared := init_env_directory_preparation env_dir config_file in
    init_env_environment_setup env_name python_ver save_defaults auto_activate
                               (fst prepared) (snd prepared).

(** ** cli.main, after argument parsing *)

Definition main (command : string) (dir : option string) : M unit :=
  if String.eqb command "init" then
    init_env None dir None None false true >> ret tt
  else
    let! ezvenv := EZVenv__init__ None None None None false true in
    if String.eqb command "install" then install_deps ezvenv
    else if String.eqb command "update" then update_deps ezvenv
    else ret tt.

End Core.

Arguments World {H} _ _ _ _.
Arguments w_os {H} _.
Arguments w_environ {H} _.
Arguments w_stdin {H} _.
Arguments w_trace {H} _.

(** ** A test double for the host

    A POSIX-like host small enough to run: an in-memory file system keyed by
    normalised absolute paths, [posixpath]'s [join] and [normpath], and codecs
    for flat documents only (block-style [key: value] YAML, JSON objects of
    strings and literals).  Child processes follow a scripted table. *)

Module TestHost.

Inductive node :=
| File (readable : bool) (content : string)
| Dir (entries : list string).

Record fsys := Fsys {
  nodes : gmap string node;
  cwd : string;
}.

(** What a test scripts: tools on the search path, exit codes of child
    processes, whether [execv] fails, and the interpreter's own identity. *)
Record script := Script {
  tools : list string;
  child : list string -> spawn_result;
  exec_fails : bool;
  executable : string;
  argv : list string;
  home : string;
}.

Fixpoint split_on (c : ascii) (s : string) : list string :=
  match s with
  | EmptyString => [EmptyString]
  | String a t =>
      let r := split_on c t in
      if Ascii.eqb a c then EmptyString :: r
      else match r with
           | h :: r' => String a h :: r'
           | [] => [String a EmptyString]
           end
  end.

Fixpoint join_with (sep : string) (l : list string) : string :=
  match l with
  | [] => ""
  | [x] => x
  | x :: r => x +:+ sep +:+ join_with sep r
  end.

(** posixpath.join *)
Definition join2 (path b : string) : string :=
  if String.prefix "/" b then b
  else if String.eqb path "" || endswith path "/" then path +:+ b
  else path +:+ "/" +:+ b.

Definition join (l : list string) : string :=
  match l with
  | [] => ""
  | a :: p => fold_left join2 p a
  end.

(** posixpath.normpath; [new_comps] is kept newest first. *)
Definition norm_step (initial_slashes : bool) (new_comps : list string)
    (comp : string) : list string :=
  if String.eqb comp "" || String.eqb comp "." then new_comps
  else if negb (String.eqb comp "..")
          || (negb initial_slashes && bool_decide (new_comps = []))
          || match new_comps with top :: _ => String.eqb top ".." | [] => false end
       then comp :: new_comps
       else match new_comps with _ :: r => r | [] => [] end.

Definition normpath (path : string) : string :=
  if String.eqb path "" then "."
  else
    let initial := String.prefix "/" path in
    let double := String.prefix "//" path && negb (String.prefix "///" path) in
    let comps := rev (fold_left (norm_step initial) (split_on "/" path) []) in
    let body := join_with "/" comps in
    let res := if double then "//" +:+ body
               else if initial then "/" +:+ body else body in
    if String.eqb res "" then "." else res.

Definition abspath (o : fsys) (p : string) : string :=
  if String.prefix "/" p then normpath p else normpath (join [cwd o; p]).

Definition lookup (o : fsys) (p : string) : option node :=
  if String.eqb p "" then None else nodes o !! abspath o p.

Definition exists_ (o : fsys) (p : string) : bool :=
  match lookup o p with Some _ => true | None => false end.

Definition listdir (o : fsys) (p : string) : exn + list string :=
  match lookup o p with
  | Some (Dir es) => inr es
  | Some (File _ _) => inl (OSError "Not a directory")
  | None => inl (OSError "No such file or directory")
  end.

Definition put (o : fsys) (p : string) (n : node) : fsys :=
  Fsys (<[abspath o p := n]> (nodes o)) (cwd o).

Definition makedirs (o : fsys) (p : string) : option exn * fsys :=
  match lookup o p with
  | Some (Dir _) => (None, o)
  | Some (File _ _) => (Some (OSError "File exists"), o)
  | None =>
      if String.eqb p "" then (Some (OSError "No such file or directory"), o)
      else (None, put o p (Dir []))
  end.

Definition chdir (o : fsys) (p : string) : exn + fsys :=
  match lookup o p with
  | Some (Dir _) => inr (Fsys (nodes o) (abspath o p))
  | Some (File _ _) => inl (OSError "Not a directory")
  | None => inl (OSError "No such file or directory")
  end.

Definition open_r (o : fsys) (p : string) : option exn :=
  match lookup o p with
  | Some (File true _) => None
  | Some (File false _) => Some (OSError "Permission denied")
  | Some (Dir _) => Some (OSError "Is a directory")
  | None => Some (OSError "No such file or directory")
  end.

Definition read (o : fsys) (p : string) : exn + string :=
  match lookup o p with
  | Some (File true text) => inr text
  | Some (File false _) => inl (OSError "Permission denied")
  | Some (Dir _) => inl (OSError "Is a directory")
  | None => inl (OSError "No such file or directory")
  end.

Definition write (o : fsys) (p text : string) : option exn * fsys :=
  match lookup o p with
  | Some (File false _) => (Some (OSError "Permission denied"), o)
  | Some (Dir _) => (Some (OSError "Is a directory"), o)
  | Some (File true _) => (None, put o p (File true text))
  | None =>
      if String.eqb p "" then (Some (OSError "No such file or directory"), o)
      else (None, put o p (File true text))
  end.

(** *** Codecs for flat documents *)

Definition nl : string := String (ascii_of_nat 10) EmptyString.
Definition dquote : ascii := ascii_of_nat 34.

Definition scalar_text (v : pyval) : string :=
  match v with
  | VStr s => s
  | VBool true => "true"
  | VBool false => "false"
  | VNone => "null"
  | VInt n => NilZero.string_of_int (Z.to_int n)
  | VList _ => "[]"
  | VDict _ => "{}"
  end.

Definition scalar_of_text (s : string) : pyval :=
  if String.eqb s "true" then VBool true
  else if String.eqb s "false" then VBool false
  else if String.eqb s "null" then VNone
  else if String.eqb s "[]" then VList []
  else if String.eqb s "{}" then VDict ∅
  else VStr s.

Definition flat_yaml_dump (v : pyval) : string :=
  match v with
  | VDict m =>
      if bool_decide (m = ∅) then "{}" +:+ nl
      else String.concat ""
             (map (fun kv => fst kv +:+ ": " +:+ scalar_text (snd kv) +:+ nl)
                  (map_to_list m))
  | _ => scalar_text v +:+ nl
  end.

Fixpoint cut_at (sep s : string) {struct s} : option (string * string) :=
  if String.prefix sep s
  then Some (EmptyString,
             String.substring (String.length sep)
                              (String.length s - String.length sep) s)
  else match s with
       | EmptyString => None
       | String a t =>
           match cut_at sep t with
           | Some (l, r) => Some (String a l, r)
           | None => None
           end
       end.

Fixpoint yaml_pairs (lines : list string) : option (list (string * pyval)) :=
  match lines with
  | [] => Some []
  | l :: r =>
      match cut_at ": " l, yaml_pairs r with
      | Some (k, v), Some kvs => Some ((k, scalar_of_text v) :: kvs)
      | _, _ => None
      end
  end.

Definition flat_yaml_safe_load (text : string) : exn + pyval :=
  let lines := filter (fun l => l ≠ "") (split_on (ascii_of_nat 10) text) in
  match lines with
  | [] => inr VNone
  | [l] =>
      match cut_at ": " l with
      | Some (k, v) => inr (VDict {[ k := scalar_of_text v ]})
      | None => inr (scalar_of_text l)
      end
  | _ =>
      match yaml_pairs lines with
      | Some kvs => inr (VDict (list_to_map kvs))
      | None => inl (ParseError "mapping values are not allowed here")
      end
  end.

Fixpoint until_quote (s : string) : option (string * string) :=
  match s with
  | EmptyString => None
  | String c t =>
      if Ascii.eqb c dquote then Some (EmptyString, t)
      else match until_quote t with
           | Some (a, r) => Some (String c a, r)
           | None => None
           end
  end.

Definition after (k : nat) (s : string) : string :=
  String.substring k (String.length s - k) s.

Definition json_value (s : string) : option (pyval * string) :=
  match s with
  | String c t =>
      if Ascii.eqb c dquote then
        match until_quote t with
        | Some (a, r) => Some (VStr a, r)
        | None => None
        end
      else if String.prefix "true" s then Some (VBool true, after 4 s)
      else if String.prefix "false" s then Some (VBool false, after 5 s)
      else if String.prefix "null" s then Some (VNone, after 4 s)
      else None
  | EmptyString => None
  end.

Fixpoint json_members (fuel : nat) (s : string) (acc : gmap string pyval)
    : option (gmap string pyval) :=
  match fuel with
  | O => None
  | S fuel' =>
      match lstrip s with
      | String q t =>
          if Ascii.eqb q dquote then
            match until_quote t with
            | Some (k, r) =>
                match lstrip r with
                | String ":" r2 =>
                    match json_value (lstrip r2) with
                    | Some (v, r3) =>
                        match lstrip r3 with
                        | String "," r4 => json_members fuel' r4 (<[k := v]> acc)
                        | String "}" r4 =>
                            if String.eqb (lstrip r4) "" then Some (<[k := v]> acc)
                            else None
                        | _ => None
                        end
                    | None => None
                    end
                | _ => None
                end
            | None => None
            end
          else None
      | EmptyString => None
      end
  end.

Definition flat_json_loads (text : string) : exn + pyval :=
  let bad := inl (ParseError "Expecting value") in
  match lstrip text with
  | String "{" t =>
      match lstrip t with
      | String "}" r => if String.eqb (lstrip r) "" then inr (VDict ∅) else bad
      | _ =>
          match json_members (String.length text) t ∅ with
          | Some m => inr (VDict m)
          | None => bad
          end
      end
  | s =>
      match json_value s with
      | Some (v, r) => if String.eqb (lstrip r) "" then inr v else bad
      | None => bad
      end
  end.

(** *** Processes and the interpreter *)

Definition which (sc : script) (o : fsys) (env : gmap string string)
    (tool : string) : option string :=
  if str_in tool (tools sc) then Some ("/usr/bin/" +:+ tool) else None.

(** A successful [<python> -m venv <path>] leaves a directory at [path]. *)
Definition run_child (sc : script) (o : fsys) (env : gmap string string)
    (args : list string) : spawn_result * fsys :=
  match child sc args, args with
  | Exited 0, [_; "-m"; "venv"; p] => (Exited 0, put o p (Dir ["bin"]))
  | r, _ => (r, o)
  end.

Definition execv (sc : script) (o : fsys) (env : gmap string string)
    (path : string) (args : list string) : option exn :=
  if exec_fails sc then Some (OSError "No such file or directory") else None.

Definition show (v : pyval) : string :=
  match v with
  | VStr s => s
  | VNone => "None"
  | VBool true => "True"
  | VBool false => "False"
  | VInt n => NilZero.string_of_int (Z.to_int n)
  | VList _ => "[...]"
  | VDict _ => "{...}"
  end.

Definition show_exn (e : exn) : string :=
  match e with
  | CalledProcessError cmd code =>
      "Command '" +:+ join_with " " cmd +:+ "' returned non-zero exit status " +:+
      NilZero.string_of_int (Z.to_int code) +:+ "."
  | OSError msg | ParseError msg | TypeError msg | AttributeError msg => msg
  | EOFError => "EOF when reading a line"
  end.

Definition host (sc : script) : Host := {|
  OS := fsys;
  os_name := "posix";
  os_pathsep := ":";
  sys_executable := executable sc;
  sys_argv := argv sc;
  sys_version_info := (3, 11);
  expanduser_home := home sc;
  py_str := show;
  exn_str := show_exn;
  path_join := join;
  path_abspath := abspath;
  os_getcwd := cwd;
  os_exists := exists_;
  os_listdir := listdir;
  os_makedirs := makedirs;
  os_chdir := chdir;
  os_open_r := open_r;
  os_read := read;
  os_write := write;
  json_loads := flat_json_loads;
  yaml_safe_load := flat_yaml_safe_load;
  yaml_dump := flat_yaml_dump;
  shutil_which := which sc;
  spawn := run_child sc;
  os_execv := execv sc;
|}.

End TestHost.

(** *** Sample runs *)

Module Samples.
Import TestHost.

(** No package manager on the search path, every child process succeeds. *)
Definition quiet : script :=
  Script [] (fun _ => Exited 0) false "/usr/bin/python3" ["ezvenv"; "init"] "/home/u".

Definition tree (l : list (string * node)) : fsys :=
  Fsys (list_to_map l) "/home/u".

Definition start (sc : script) (o : fsys) (env : list (string * string))
    (answers : list string) : world (host sc) :=
  World (H := host sc) o (list_to_map env) answers [].

(** A home directory and an empty [/srv]. *)
Definition bare : fsys := tree [("/home/u", Dir []); ("/srv", Dir [])].

(** A project directory that already holds a file. *)
Definition busy : fsys :=
  tree [("/home/u", Dir []); ("/srv", Dir ["app"]);
        ("/srv/app", Dir ["main.py"]); ("/srv/app/main.py", File true "")].

(** A home directory with a stored per-user config, and a project with an
    unrecognised and an unreadable settings file. *)
Definition stored : fsys :=
  tree [("/home/u", Dir [".EZVenv"]);
        ("/home/u/.EZVenv", Dir ["ezvenv.yaml"]);
        ("/home/u/.EZVenv/ezvenv.yaml",
         File true ("envDir: /opt/project" +:+ nl +:+ "envName: env" +:+ nl));
        ("/srv", Dir ["app"]);
        ("/srv/app", Dir ["main.py"; "settings.cfg"; "locked.cfg"]);
        ("/srv/app/main.py", File true "");
        ("/srv/app/settings.cfg", File true ("envName: env" +:+ nl));
        ("/srv/app/locked.cfg", File false ("envName: env" +:+ nl))].


(** An object as the constructor builds it for [/srv/app]. *)
Definition app_env (config_file : string) : EZVenv := {|
  configFile := config_file;
  config := VDict ∅;
  envName := VStr ".venv";
  envDir := "/srv/app";
  pythonVer := VStr "/usr/bin/python3";
  envPath := "/srv/app/.venv";
  pkgManager := VStr "pip";
  autoInstall := VBool true;
  autoUpdate := VBool true;
  autoActivate := false;
|}.

End Samples.

(** *** More sample data *)

Module MoreSamples.
Import TestHost Samples.

(** A project with a dependency manifest. *)
Definition with_manifest : fsys :=
  tree [("/home/u", Dir []); ("/srv", Dir ["app"]);
        ("/srv/app", Dir ["requirements.txt"]);
        ("/srv/app/requirements.txt", File true "requests")].






(** Per-user configs that parse but do not fit: a bare scalar, and a
    mapping whose name is a boolean. *)
Definition scalar_config : fsys :=
  tree [("/home/u", Dir [".EZVenv"]);
        ("/home/u/.EZVenv", Dir ["ezvenv.yaml"]);
        ("/home/u/.EZVenv/ezvenv.yaml", File true ("hello" +:+ nl))].

Definition boolean_name : fsys :=
  tree [("/home/u", Dir [".EZVenv"]);
        ("/home/u/.EZVenv", Dir ["ezvenv.yaml"]);
        ("/home/u/.EZVenv/ezvenv.yaml", File true ("envName: true" +:+ nl))].

(** An empty directory [proj] below the working directory. *)
Definition empty_proj : fsys :=
  tree [("/home/u", Dir ["proj"]); ("/home/u/proj", Dir [])].



End MoreSamples.

(** * Properties *)

(** Events that change the file system, the environment or the process. *)
Definition mutating (ev : event) : bool :=
  match ev with
  | EvMakedirs _ | EvChdir _ | EvWrite _ _ | EvRun _ | EvSetenv _ _
  | EvExec _ _ _ => true
  | EvPrint _ | EvLog _ _ | EvInput _ _ | EvParse _ => false
  end.




(** Scanning a trace in order: every [EvExec] comes after the marker was
    last assigned, and that assignment gave it the value "1". *)
Fixpoint marker_set_before_exec (is_set : bool) (t : list event) : bool :=
  match t with
  | [] => true
  | EvSetenv k v :: r =>
      marker_set_before_exec
        (if String.eqb k "EZVENV_ALREADY_ACTIVATED" then String.eqb v "1"
         else is_set) r
  | EvExec _ _ _ :: r => is_set && marker_set_before_exec is_set r
  | _ :: r => marker_set_before_exec is_set r
  end.

Definition exec_marked (ev : event) : Prop :=
  match ev with
  | EvExec _ _ env => env !! "EZVENV_ALREADY_ACTIVATED" = Some "1"
  | _ => True
  end.

(** The spec's resolution order, in its own words: an explicit argument, else
    the stored value, else the default. *)
Definition by_priority (explicit : option string) (stored : option pyval)
    (fallback : pyval) : pyval :=
  match explicit with
  | Some s => VStr s
  | None =>
      match stored with
      | Some v => v
      | None => fallback
      end
  end.

(** The spec's default package manager: the first of poetry and pipenv
    found on the search path, else pip. *)
Definition detected_manager (H : Host) (o : OS H) (env : gmap string string)
    : string :=
  if bool_decide (is_Some (arg_given (shutil_which H o env "poetry")))
  then "poetry"
  else if bool_decide (is_Some (arg_given (shutil_which H o env "pipenv")))
       then "pipenv"
       else "pip".

(** The stored package-manager preference; "auto" counts as no preference. *)
Definition stored_manager (m : gmap string pyval) : option pyval :=
  match m !! "pkgManager" with
  | Some v => if py_ne_str v "auto" then Some v else None
  | None => None
  end.

(** ** Accounting for effects

    The trace is meant as a full account of a run: the environment after it
    is the environment before it with the recorded assignments replayed, one
    pending answer is consumed per recorded prompt, and the OS state can only
    differ if an event that touches it was recorded. *)

Definition env_after (evs : list event) (env : gmap string string)
    : gmap string string :=
  fold_left (fun e ev => match ev with
                         | EvSetenv k v => <[k := v]> e
                         | _ => e
                         end) evs env.

Definition touches_os (ev : event) : bool :=
  match ev with
  | EvMakedirs _ | EvChdir _ | EvWrite _ _ | EvRun _ => true
  | _ => false
  end.

Definition is_input (ev : event) : bool :=
  match ev with EvInput _ _ => true | _ => false end.

Definition answers (evs : list event) : nat :=
  length (filter (fun ev => is_input ev = true) evs).

(** What a computation is allowed to do: the events it may emit, the
    exceptions it may raise, the codes it may pass to [sys.exit], and whether
    it may replace the process image. *)
Record limits := Limits {
  ev_ok : event -> Prop;
  exn_ok : exn -> Prop;
  exit_ok : Z -> Prop;
  may_replace : Prop;
}.

Definition with_exn (X : exn -> Prop) (L : limits) : limits :=
  Limits (ev_ok L) X (exit_ok L) (may_replace L).

Definition is_exec (ev : event) : bool :=
  match ev with EvExec _ _ _ => true | _ => false end.

Definition is_setenv (ev : event) : bool :=
  match ev with EvSetenv _ _ => true | _ => false end.

Definition is_write (ev : event) : bool :=
  match ev with EvWrite _ _ => true | _ => false end.


(** [account H P w w']: [w'] is [w] after a run that emitted only events in
    [P], and the trace accounts for every change. *)
Definition account (H : Host) (P : event -> Prop) (w w' : world H) : Prop :=
  exists evs,
    w_trace w' = w_trace w ++ evs /\
    Forall P evs /\
    w_environ w' = env_after evs (w_environ w) /\
    w_stdin w' = drop (answers evs) (w_stdin w) /\
    (Forall (fun ev => touches_os ev = false) evs -> w_os w' = w_os w).

Definition within (H : Host) (L : limits) {A : Type} (m : M H A) : Prop :=
  forall w : world H,
    account H (ev_ok L) w (m w).2 /\
    match (m w).1 with
    | Ret _ => True
    | Raise e => exn_ok L e
    | Exit c => exit_ok L c
    | Replaced => may_replace L
    end.

Inductive kind :=
| KPrint | KLog | KInput | KMakedirs | KChdir | KParse | KWrite | KRun
| KSetenv | KExec.

Definition kind_of (ev : event) : kind :=
  match ev with
  | EvPrint _ => KPrint
  | EvLog _ _ => KLog
  | EvInput _ _ => KInput
  | EvMakedirs _ => KMakedirs
  | EvChdir _ => KChdir
  | EvParse _ => KParse
  | EvWrite _ _ => KWrite
  | EvRun _ => KRun
  | EvSetenv _ _ => KSetenv
  | EvExec _ _ _ => KExec
  end.

Definition kind_eqb (a b : kind) : bool :=
  match a, b with
  | KPrint, KPrint | KLog, KLog | KInput, KInput | KMakedirs, KMakedirs
  | KChdir, KChdir | KParse, KParse | KWrite, KWrite | KRun, KRun
  | KSetenv, KSetenv | KExec, KExec => true
  | _, _ => false
  end.

Inductive exn_kind := XCalled | XOS | XParse | XEOF | XType | XAttribute.

Definition exn_kind_of (e : exn) : exn_kind :=
  match e with
  | CalledProcessError _ _ => XCalled
  | OSError _ => XOS
  | ParseError _ => XParse
  | EOFError => XEOF
  | TypeError _ => XType
  | AttributeError _ => XAttribute
  end.

Definition exn_kind_eqb (a b : exn_kind) : bool :=
  match a, b with
  | XCalled, XCalled | XOS, XOS | XParse, XParse | XEOF, XEOF
  | XType, XType | XAttribute, XAttribute => true
  | _, _ => false
  end.

(** Limits given by lists: kinds of events, kinds of exceptions, exit codes. *)
Definition lim (ks : list kind) (xs : list exn_kind) (cs : list Z)
    (rep : bool) : limits :=
  Limits (fun ev => existsb (kind_eqb (kind_of ev)) ks = true)
         (fun e => existsb (exn_kind_eqb (exn_kind_of e)) xs = true)
         (fun c => existsb (Z.eqb c) cs = true)
         (rep = true).

Definition any_exn : list exn_kind :=
  [XCalled; XOS; XParse; XEOF; XType; XAttribute].

(** Limits for code that may replace the process: every [EvExec] carries
    the activation marker. *)
Definition marked_lim (ks : list kind) (cs : list Z) : limits :=
  Limits (fun ev => exec_marked ev /\
                    existsb (kind_eqb (kind_of ev)) ks = true)
         (fun _ => True)
         (fun c => existsb (Z.eqb c) cs = true)
         True.

Section Facts.
Context (H : Host).
Implicit Types (w : world H) (self : EZVenv).

Ltac unfold_m :=
  unfold bind, ret, raise, sys_exit, try_except, except_Exception,
    except_CalledProcessError, print, logging_info, logging_error, input,
    environ_get, environ_set, getcwd, abspath, path_exists, listdir, makedirs,
    chdir, open_r, json_load, yaml_load, load_with, yaml_dump_to, which,
    execv, emit, set_os in *.

Ltac msimpl := cbn [w_os w_environ w_stdin w_trace fst snd as_strs].

Ltac extend_trace :=
  eexists; split; [rewrite <- ?app_assoc; simpl; reflexivity |].

(** ** The activation marker *)

(** C1 (amended): when the activation marker holds the value "1", [init_env]
    returns the current working directory at once; its only effect is one
    printed line: the file system, the working directory, the environment
    and the pending input are as before, and no child process is started. *)
Theorem init_env_marker_short_circuit
    (env_name env_dir python_ver config_file : option string)
    (save_defaults auto_activate : bool) w :
  w_environ w !! ACTIVATED = Some "1" ->
  init_env H env_name env_dir python_ver config_file save_defaults auto_activate w
  = (Ret (os_getcwd H (w_os w)),
     World (w_os w) (w_environ w) (w_stdin w)
           (w_trace w ++
            [EvPrint "Environment already activated, skipping re-initialization."])).
Proof.
  intros Hmark. unfold init_env. unfold_m. rewrite Hmark.
  rewrite bool_decide_eq_true_2 by reflexivity. reflexivity.
Qed.

(** ** Declining the non-empty-directory prompt *)

Lemma declined_no : declined "n" = true /\ declined "no" = true /\
                    declined "N" = true /\ declined "No" = true.
Proof. repeat split; reflexivity. Qed.

(** C2: with a target directory that exists and is not empty and a negative
    answer pending, [init_env] ends the process with status 0 and leaves the
    file system, the working directory and the environment untouched; it
    emits no mutating event. *)
Theorem init_env_declined_is_clean
    (env_name python_ver config_file : option string)
    (save_defaults auto_activate : bool) w
    (d answer entry : string) (entries rest : list string) :
  d <> "" ->
  os_exists H (w_os w) d = true ->
  os_listdir H (w_os w) d = inr (entry :: entries) ->
  w_stdin w = answer :: rest ->
  declined answer = true ->
  let r := init_env H env_name (Some d) python_ver config_file
                    save_defaults auto_activate w in
  exit_status r.1 = Some 0%Z /\
  w_os r.2 = w_os w /\
  w_environ r.2 = w_environ w /\
  exists evs, w_trace r.2 = w_trace w ++ evs /\
              Forall (fun ev => mutating ev = false) evs.
Proof.
  intros Hd Hex Hls Hin Hno r. subst r.
  assert (arg_given (Some d) = Some d) as Hgiven.
  { simpl. destruct (String.eqb_spec d ""); congruence. }
  unfold init_env, init_env_directory_preparation. rewrite Hgiven.
  unfold_m. cbn beta iota.
  destruct (bool_decide (w_environ w !! ACTIVATED = Some "1")).
  - simpl. repeat split; try reflexivity.
    extend_trace. repeat constructor.
  - rewrite Hex. simpl. rewrite Hls, Hin. simpl. rewrite Hno. simpl.
    repeat split; try reflexivity.
    extend_trace. repeat constructor.
Qed.

(** ** Dependencies without a manifest *)


(** ** Creating the environment *)







(** ** The config store *)

Lemma yaml_suffix_not_json (f : string) :
  endswith f ".yaml" || endswith f ".yml" = true -> endswith f ".json" = false.
Proof.
  unfold endswith. cbn [String.rev String.rev_app].
  destruct (String.rev f) as [|c t]; [reflexivity|].
  cbn [String.prefix].
  destruct (ascii_dec "l" c) as [<-|Hl]; [reflexivity|].
  rewrite orb_false_r. discriminate.
Qed.

(** [load_config] only reads: the file system, the environment and the
    pending input are as before. *)
Lemma load_config_frame (f : string) w :
  w_os (load_config H f w).2 = w_os w /\
  w_environ (load_config H f w).2 = w_environ w /\
  w_stdin (load_config H f w).2 = w_stdin w.
Proof.
  unfold load_config. unfold_m.
  cbn [w_os w_environ w_stdin w_trace]. cbn beta iota.
  destruct (os_exists H (w_os w) f); [|repeat split; reflexivity].
  destruct (os_open_r H (w_os w) f); [repeat split; reflexivity|].
  destruct (endswith f ".json");
    [|destruct (endswith f ".yaml" || endswith f ".yml")];
    try (destruct (os_read H (w_os w) f) as [e|text];
         [repeat split; reflexivity|]);
    try (destruct (json_loads H text)); try (destruct (yaml_safe_load H text));
    repeat split; reflexivity.
Qed.


Lemma config_data_fields self :
  config_data self !! "envName" = Some (envName self) /\
  config_data self !! "envDir" = Some (VStr (envDir self)) /\
  config_data self !! "pythonVer" = Some (pythonVer self) /\
  config_data self !! "autoInstall" = Some (autoInstall self) /\
  config_data self !! "autoUpdate" = Some (autoUpdate self) /\
  config_data self !! "pkgManager" = Some (pkgManager self).
Proof. unfold config_data. repeat split; by simplify_map_eq. Qed.

Lemma config_data_truthy self : truthy (VDict (config_data self)) = true.
Proof.
  cbn [truthy]. rewrite bool_decide_eq_false_2; [reflexivity|].
  unfold config_data. apply insert_non_empty.
Qed.

(** C10 (amended): an existing config file whose name ends in none of
    [.json], [.yaml], [.yml] and that can be opened is not parsed; the
    result is the empty fragment and nothing is printed.  Value and printed
    output are those of a missing file; only the log line differs. *)
Theorem load_config_unknown_suffix (f : string) w :
  endswith f ".json" = false ->
  endswith f ".yaml" = false ->
  endswith f ".yml" = false ->
  os_exists H (w_os w) f = true ->
  os_open_r H (w_os w) f = None ->
  load_config H f w =
    (Ret (VDict ∅),
     World (w_os w) (w_environ w) (w_stdin w)
           (w_trace w ++ [EvLog INFO ("Configuration loaded from " +:+ f)])) /\
  forall w0 : world H, os_exists H (w_os w0) f = false ->
    load_config H f w0 =
    (Ret (VDict ∅),
     World (w_os w0) (w_environ w0) (w_stdin w0)
           (w_trace w0 ++ [EvLog INFO ("No config file found at " +:+ f +:+
                                       ". Using default settings.")])).
Proof.
  intros Hj Hy Hm Hex Hop. split.
  - unfold load_config. unfold_m. rewrite Hex, Hop, Hj, Hy, Hm. reflexivity.
  - intros w0 Hmiss. unfold load_config. unfold_m. rewrite Hmiss. reflexivity.
Qed.

(** C4 (amended): for a config file named [*.yaml] or [*.yml], once
    [save_config] has written it, [load_config] returns the saved dictionary,
    hence each of the six persisted fields as saved.  The host is assumed to
    write the file, to read back what was written, and to parse the YAML it
    dumped for these six fields. *)
Theorem save_then_load_round_trip self w (o' : OS H) :
  let f := configFile self in
  let text := yaml_dump H (VDict (config_data self)) in
  endswith f ".yaml" || endswith f ".yml" = true ->
  os_write H (w_os w) f text = (None, o') ->
  os_exists H o' f = true ->
  os_open_r H o' f = None ->
  os_read H o' f = inr text ->
  yaml_safe_load H text = inr (VDict (config_data self)) ->
  exists m,
    (load_config H f (save_config H self w).2).1 = Ret (VDict m) /\
    m !! "envName" = Some (envName self) /\
    m !! "envDir" = Some (VStr (envDir self)) /\
    m !! "pythonVer" = Some (pythonVer self) /\
    m !! "autoInstall" = Some (autoInstall self) /\
    m !! "autoUpdate" = Some (autoUpdate self) /\
    m !! "pkgManager" = Some (pkgManager self).
Proof.
  intros f text Hy Hw Hex Hop Hrd Hrt. subst f text.
  exists (config_data self). split; [|apply config_data_fields].
  pose proof (yaml_suffix_not_json _ Hy) as Hj.
  unfold save_config, load_config. unfold_m.
  cbn [w_os w_environ w_stdin w_trace]. cbn beta iota.
  rewrite Hw. msimpl. rewrite Hex. msimpl. rewrite Hop, Hj, Hy. msimpl.
  rewrite Hrd, Hrt. msimpl. rewrite config_data_truthy. reflexivity.
Qed.

(** When the written text is not accepted by the parser chosen for the file
    name, the saved settings are lost on the next load. *)
Lemma save_then_load_json self w (o' : OS H) e :
  let f := configFile self in
  let text := yaml_dump H (VDict (config_data self)) in
  endswith f ".json" = true ->
  os_write H (w_os w) f text = (None, o') ->
  os_exists H o' f = true ->
  os_open_r H o' f = None ->
  os_read H o' f = inr text ->
  json_loads H text = inl e ->
  (load_config H f (save_config H self w).2).1 = Ret (VDict ∅).
Proof.
  intros f text Hj Hw Hex Hop Hrd Hbad. subst f text.
  unfold save_config, load_config. unfold_m.
  cbn [w_os w_environ w_stdin w_trace]. cbn beta iota.
  rewrite Hw. msimpl. rewrite Hex. msimpl. rewrite Hop, Hj. msimpl.
  rewrite Hrd, Hbad. reflexivity.
Qed.

(** ** Resolving the settings *)

Lemma bind_ret {A B} (m : M H A) (k : A -> M H B) w (a : A) w' :
  m w = (Ret a, w') -> bind H m k w = k a w'.
Proof. intros Hm. unfold bind. rewrite Hm. reflexivity. Qed.

Lemma save_config_returns self w : (save_config H self w).1 = Ret tt.
Proof.
  unfold save_config. unfold_m. msimpl.
  destruct (os_write H (w_os w) (configFile self) _) as [[e|] o]; reflexivity.
Qed.

(** C7 (amended): when the stored config is a dictionary and the resolved
    name is a string, the constructor returns an object whose name and
    interpreter follow explicit argument, then stored value, then default
    (".venv", the running interpreter); whose package manager is the stored
    value unless that is absent or "auto", else the first of poetry and
    pipenv on the search path, else pip; and whose directory is the explicit
    argument or else the working directory, made absolute.  With preference
    "auto" or none and neither tool found, the package manager is pip. *)
Theorem init_resolves_by_priority
    (config_file env_name env_dir python_ver : option string)
    (save_defaults auto_activate : bool) w
    (m : gmap string pyval) (n : string) :
  let f := default (path_join H [CONFIG_DIR H; "ezvenv.yaml"])
                   (arg_given config_file) in
  (load_config H f w).1 = Ret (VDict m) ->
  by_priority (arg_given env_name) (m !! "envName") (VStr ".venv") = VStr n ->
  exists self,
    (EZVenv__init__ H config_file env_name env_dir python_ver
                    save_defaults auto_activate w).1 = Ret self /\
    envName self =
      by_priority (arg_given env_name) (m !! "envName") (VStr ".venv") /\
    pythonVer self =
      by_priority (arg_given python_ver) (m !! "pythonVer")
                  (VStr (sys_executable H)) /\
    pkgManager self =
      by_priority None (stored_manager m)
                  (VStr (detected_manager H (w_os w) (w_environ w))) /\
    envDir self =
      path_abspath H (w_os w)
        (default (os_getcwd H (w_os w)) (arg_given env_dir)) /\
    envPath self = path_join H [envDir self; n] /\
    (stored_manager m = None ->
     shutil_which H (w_os w) (w_environ w) "poetry" = None ->
     shutil_which H (w_os w) (w_environ w) "pipenv" = None ->
     pkgManager self = VStr "pip").
Proof.
  intros f Hload Hname.
  pose proof (load_config_frame f w) as (Hos & Henv & _).
  unfold EZVenv__init__.
  replace (match arg_given config_file with
           | Some f0 => f0
           | None => path_join H [CONFIG_DIR H; "ezvenv.yaml"]
           end) with f by (subst f; destruct (arg_given config_file); reflexivity).
  unfold bind at 1.
  destruct (load_config H f w) as [r1 [o1 e1 s1 t1]].
  cbn [fst snd w_os w_environ] in *. subst r1 o1 e1.
  set (w1 := World (w_os w) (w_environ w) s1 t1).
  remember (by_priority (arg_given env_name) (m !! "envName") (VStr ".venv"))
    as name eqn:Ename.
  set (py := by_priority (arg_given python_ver) (m !! "pythonVer")
                         (VStr (sys_executable H))).
  set (pm := by_priority None (stored_manager m)
                         (VStr (detected_manager H (w_os w) (w_environ w)))).
  set (dir := path_abspath H (w_os w)
                (default (os_getcwd H (w_os w)) (arg_given env_dir))).
  assert (Hn : (match arg_given env_name with
                | Some n0 => ret H (VStr n0)
                | None => config_get H (VDict m) "envName" (VStr ".venv")
                end) w1 = (Ret name, w1)).
  { rewrite Ename. unfold by_priority.
    destruct (arg_given env_name); [reflexivity|].
    cbn. destruct (m !! "envName"); reflexivity. }
  assert (Hd : (match arg_given env_dir with
                | Some d => ret H d
                | None => getcwd H
                end) w1 =
               (Ret (default (os_getcwd H (w_os w)) (arg_given env_dir)), w1)).
  { destruct (arg_given env_dir); reflexivity. }
  assert (Hp : (match arg_given python_ver with
                | Some p => ret H (VStr p)
                | None => config_get H (VDict m) "pythonVer" (VStr (sys_executable H))
                end) w1 = (Ret py, w1)).
  { subst py. unfold by_priority.
    destruct (arg_given python_ver); [reflexivity|].
    cbn. destruct (m !! "pythonVer"); reflexivity. }
  assert (Hm : detect_pkg_manager H (VDict m) w1 = (Ret pm, w1)).
  { subst pm. unfold detect_pkg_manager, by_priority, stored_manager,
      detected_manager, config_get. unfold_m. msimpl.
    destruct (m !! "pkgManager") as [v|]; cbn;
      [destruct (py_ne_str v "auto"); [reflexivity|] |];
      repeat (destruct (bool_decide _); [reflexivity|]); reflexivity. }
  exists {| configFile := f; config := VDict m; envName := name; envDir := dir;
            pythonVer := py; envPath := path_join H [dir; n]; pkgManager := pm;
            autoInstall := default (VBool true) (m !! "autoInstall");
            autoUpdate := default (VBool true) (m !! "autoUpdate");
            autoActivate := auto_activate |}.
  split.
  - erewrite bind_ret by exact Hn.
    erewrite bind_ret by exact Hd.
    erewrite bind_ret by reflexivity.
    erewrite bind_ret by exact Hp.
    unfold join_env_path at 1. rewrite Hname at 1.
    erewrite bind_ret by reflexivity.
    erewrite bind_ret by exact Hm.
    erewrite bind_ret by reflexivity.
    erewrite bind_ret by reflexivity.
    destruct save_defaults.
    + unfold bind.
      match goal with |- context [save_config H ?s ?w0] =>
        pose proof (save_config_returns s w0) as Hs;
        destruct (save_config H s w0) as [r2 w2] end.
      cbn [fst] in Hs. subst r2. reflexivity.
    + reflexivity.
  - cbn [envName pythonVer pkgManager envDir envPath].
    repeat split; try reflexivity.
    intros Hnone Hpo Hpi. subst pm. rewrite Hnone. unfold by_priority,
      detected_manager. rewrite Hpo, Hpi. reflexivity.
Qed.

(** ** Activation *)

(** C8: every [os.execv] attempted by [activate_env] comes after the
    activation marker was assigned "1" within the same call, and is made
    with the marker equal to "1" in the environment handed to the new
    process image; whenever the process is in fact replaced, the marker is
    set. *)
Theorem activate_env_marks_before_exec self w :
  let r := activate_env H self w in
  (exists evs, w_trace r.2 = w_trace w ++ evs /\
               Forall exec_marked evs /\
               marker_set_before_exec false evs = true) /\
  (r.1 = Replaced -> w_environ r.2 !! "EZVENV_ALREADY_ACTIVATED" = Some "1").
Proof.
  intros r. subst r.
  unfold activate_env, subprocess_run, ACTIVATED. unfold_m. msimpl.
  destruct (contains _ _); msimpl.
  - destruct (w_stdin w) as [|answer rest]; msimpl.
    { split; [|discriminate]. extend_trace. split; [repeat constructor|reflexivity]. }
    destruct (String.eqb (strip answer) "3"); msimpl.
    { split; [|discriminate]. extend_trace. split; [repeat constructor|reflexivity]. }
    destruct (String.eqb (strip answer) "1"); msimpl.
    { destruct (os_execv H _ _ _ _); msimpl;
        (split; [extend_trace;
                 (split; [repeat constructor; apply lookup_insert_eq|reflexivity])
                | intros; try discriminate; apply lookup_insert_eq]). }
    destruct (String.eqb (strip answer) "2"); msimpl.
    { destruct (os_execv H _ _ _ _); msimpl;
        (split; [extend_trace;
                 (split; [repeat constructor; apply lookup_insert_eq|reflexivity])
                | intros; try discriminate; apply lookup_insert_eq]). }
    split; [|discriminate]. extend_trace. split; [repeat constructor|reflexivity].
  - destruct (negb _); msimpl.
    2:{ split; [|discriminate]. extend_trace.
        split; [repeat constructor|reflexivity]. }
    destruct (spawn H _ _ _) as [[[|c|c]|msg] o1]; msimpl;
      try destruct (os_exists H _ _); msimpl;
      try destruct (os_execv H _ _ _ _); msimpl;
      (split; [extend_trace;
               (split; [repeat constructor; apply lookup_insert_eq|reflexivity])
              | intros; try discriminate; apply lookup_insert_eq]).
Qed.

(** ** Answering the prompts with an empty line *)

Lemma arg_given_Some (s : string) : s <> "" -> arg_given (Some s) = Some s.
Proof. intros Hs. simpl. destruct (String.eqb_spec s ""); congruence. Qed.

(** C9 (amended): an empty answer counts as "yes" at each confirmation
    prompt of [init_env]: after the non-empty-directory prompt, after the
    config-overwrite prompt, and after both, initialization goes on to the
    environment setup with the directory entered and the answers consumed. *)
Theorem init_env_empty_answer_proceeds
    (env_name python_ver : option string) (save_defaults auto_activate : bool) w :
  w_environ w !! ACTIVATED <> Some "1" ->
  declined "" = false /\
  (forall (d entry : string) (entries rest : list string) (o1 : OS H),
     d <> "" ->
     os_exists H (w_os w) d = true ->
     os_listdir H (w_os w) d = inr (entry :: entries) ->
     w_stdin w = "" :: rest ->
     os_chdir H (w_os w) d = inr o1 ->
     init_env H env_name (Some d) python_ver None save_defaults auto_activate w =
     init_env_environment_setup H env_name python_ver save_defaults auto_activate
       d (path_join H [os_getcwd H o1; "ezvenv.yaml"])
       (World o1 (w_environ w) rest
          (w_trace w ++
           [EvInput ("Directory '" +:+ d +:+
              "' is not empty. Are you sure you want to initialize it? (Y/n): ") "";
            EvChdir d]))) /\
  (forall (d c entry : string) (entries rest : list string) (o1 : OS H),
     d <> "" -> c <> "" ->
     os_exists H (w_os w) d = true ->
     os_listdir H (w_os w) d = inr (entry :: entries) ->
     w_stdin w = "" :: "" :: rest ->
     os_chdir H (w_os w) d = inr o1 ->
     os_exists H o1 c = true ->
     init_env H env_name (Some d) python_ver (Some c) save_defaults auto_activate w =
     init_env_environment_setup H env_name python_ver save_defaults auto_activate
       d c
       (World o1 (w_environ w) rest
          (w_trace w ++
           [EvInput ("Directory '" +:+ d +:+
              "' is not empty. Are you sure you want to initialize it? (Y/n): ") "";
            EvChdir d;
            EvInput ("Configuration file '" +:+ c +:+
              "' already exists. Overwrite? (Y/n): ") ""]))) /\
  (forall (c : string) (rest : list string),
     c <> "" ->
     os_exists H (w_os w) c = true ->
     w_stdin w = "" :: rest ->
     init_env H env_name None python_ver (Some c) save_defaults auto_activate w =
     init_env_environment_setup H env_name python_ver save_defaults auto_activate
       (os_getcwd H (w_os w)) c
       (World (w_os w) (w_environ w) rest
          (w_trace w ++
           [EvInput ("Configuration file '" +:+ c +:+
              "' already exists. Overwrite? (Y/n): ") ""]))).
Proof.
  intros Hmark. split; [reflexivity|].
  assert (Hno : bool_decide (w_environ w !! ACTIVATED = Some "1") = false)
    by (apply bool_decide_eq_false_2; exact Hmark).
  split; [|split].
  - intros d entry entries rest o1 Hd Hex Hls Hin Hcd.
    unfold init_env, init_env_directory_preparation.
    rewrite (arg_given_Some d Hd). unfold_m. simpl. rewrite Hno, Hex. simpl.
    rewrite Hls, Hin. simpl. rewrite Hcd. simpl.
    rewrite <- !app_assoc. reflexivity.
  - intros d c entry entries rest o1 Hd Hc Hex Hls Hin Hcd Hexc.
    unfold init_env, init_env_directory_preparation.
    rewrite (arg_given_Some d Hd), (arg_given_Some c Hc).
    unfold_m. simpl. rewrite Hno, Hex. simpl.
    rewrite Hls, Hin. simpl. rewrite Hcd. simpl. rewrite Hexc. simpl.
    rewrite <- !app_assoc. reflexivity.
  - intros c rest Hc Hexc Hin.
    unfold init_env, init_env_directory_preparation.
    rewrite (arg_given_Some c Hc). unfold_m. simpl. rewrite Hno. simpl.
    rewrite Hexc. simpl. rewrite Hin. simpl. reflexivity.
Qed.

End Facts.

(** * Further properties of the code *)

Section Behaviour.
Context (H : Host).
Implicit Types (w : world H) (self : EZVenv) (L : limits).

Ltac unfold_m :=
  unfold bind, ret, raise, sys_exit, try_except, except_Exception,
    except_CalledProcessError, print, logging_info, logging_error, input,
    environ_get, environ_set, getcwd, abspath, path_exists, listdir, makedirs,
    chdir, open_r, json_load, yaml_load, load_with, yaml_dump_to, which,
    execv, emit, set_os in *.

Ltac msimpl := cbn [w_os w_environ w_stdin w_trace fst snd as_strs].

(** ** Composition rules *)

Lemma env_after_app (e1 e2 : list event) (env : gmap string string) :
  env_after (e1 ++ e2) env = env_after e2 (env_after e1 env).
Proof. unfold env_after. apply fold_left_app. Qed.

Lemma answers_app (e1 e2 : list event) :
  answers (e1 ++ e2) = answers e1 + answers e2.
Proof. unfold answers. rewrite filter_app, length_app. reflexivity. Qed.

Lemma account_refl (P : event -> Prop) w : account H P w w.
Proof.
  exists []. rewrite app_nil_r. repeat split; auto.
Qed.

Lemma account_trans (P : event -> Prop) w1 w2 w3 :
  account H P w1 w2 -> account H P w2 w3 -> account H P w1 w3.
Proof.
  intros (e1 & Ht1 & Hp1 & He1 & Hs1 & Ho1) (e2 & Ht2 & Hp2 & He2 & Hs2 & Ho2).
  exists (e1 ++ e2). split; [rewrite Ht2, Ht1, app_assoc; reflexivity|].
  split; [apply Forall_app; split; assumption|].
  split; [rewrite He2, He1, env_after_app; reflexivity|].
  split; [rewrite Hs2, Hs1, answers_app, drop_drop; reflexivity|].
  intros Hq. apply Forall_app in Hq as [Hq1 Hq2].
  rewrite (Ho2 Hq2). apply Ho1, Hq1.
Qed.

Lemma account_weaken (P Q : event -> Prop) w w' :
  (forall ev, P ev -> Q ev) -> account H P w w' -> account H Q w w'.
Proof.
  intros Hpq (evs & Ht & Hp & Hrest). exists evs. split; [exact Ht|].
  split; [eapply Forall_impl; eauto | exact Hrest].
Qed.

(** One event that touches neither the environment, the input nor the OS. *)
Lemma account_note (P : event -> Prop) w (ev : event) :
  P ev -> is_input ev = false -> is_setenv ev = false ->
  account H P w (emit H ev w).
Proof.
  intros Hp Hi Hs. exists [ev]. unfold emit; cbn [w_trace w_environ w_stdin w_os].
  repeat split; auto.
  - destruct ev; try discriminate; reflexivity.
  - unfold answers. rewrite filter_cons.
    destruct (decide (is_input ev = true)); [congruence|reflexivity].
Qed.

(** One event that touches the OS only. *)
Lemma account_os (P : event -> Prop) w (ev : event) (o : OS H) :
  P ev -> touches_os ev = true ->
  account H P w (emit H ev (set_os H o w)).
Proof.
  intros Hp Ho. exists [ev].
  unfold emit, set_os; cbn [w_trace w_environ w_stdin w_os].
  repeat split; auto.
  - destruct ev; try discriminate; reflexivity.
  - unfold answers. rewrite filter_cons.
    destruct (decide (is_input ev = true)) as [Hi|]; [|reflexivity].
    destruct ev; discriminate.
  - intros Hq. inversion Hq; congruence.
Qed.

Lemma within_ret L {A} (a : A) : within H L (ret H a).
Proof. intros w. split; [apply account_refl | exact I]. Qed.

Lemma within_raise L {A} (e : exn) : exn_ok L e -> within H L (@raise H A e).
Proof. intros He w. split; [apply account_refl | exact He]. Qed.

Lemma within_exit L {A} (c : Z) : exit_ok L c -> within H L (@sys_exit H A c).
Proof. intros Hc w. split; [apply account_refl | exact Hc]. Qed.

Lemma within_bind L {A B} (m : M H A) (k : A -> M H B) :
  within H L m -> (forall a, within H L (k a)) -> within H L (bind H m k).
Proof.
  intros Hm Hk w. unfold bind. specialize (Hm w).
  destruct (m w) as [[a|e|c|] w1]; cbn [fst snd] in *; try exact Hm.
  destruct Hm as [Ha _]. specialize (Hk a w1). destruct Hk as [Hb Hr].
  split; [eapply account_trans; eassumption | exact Hr].
Qed.

Lemma within_try L (X : exn -> Prop) {A} (m : M H A) (h : exn -> option (M H A)) :
  within H (with_exn X L) m ->
  (forall e, X e -> match h e with
                    | Some k => within H L k
                    | None => exn_ok L e
                    end) ->
  within H L (try_except H m h).
Proof.
  intros Hm Hh w. unfold try_except. specialize (Hm w).
  destruct (m w) as [[a|e|c|] w1]; cbn [fst snd with_exn ev_ok exn_ok exit_ok
    may_replace] in *; try exact Hm.
  destruct Hm as [Ha Hx]. specialize (Hh e Hx).
  destruct (h e) as [k|].
  - specialize (Hh w1). destruct Hh as [Hb Hr].
    split; [eapply account_trans; eassumption | exact Hr].
  - split; [exact Ha | exact Hh].
Qed.

Lemma within_try_all L {A} (m : M H A) (k : exn -> M H A) :
  within H (with_exn (fun _ => True) L) m ->
  (forall e, within H L (k e)) ->
  within H L (try_except H m (except_Exception H k)).
Proof.
  intros Hm Hk. eapply within_try; [exact Hm|]. intros e _. apply Hk.
Qed.

Lemma within_try_called L {A} (m : M H A) (k : exn -> M H A) :
  within H (with_exn (fun e => exn_kind_of e = XCalled \/ exn_ok L e) L) m ->
  (forall cmd c, within H L (k (CalledProcessError cmd c))) ->
  within H L (try_except H m (except_CalledProcessError H k)).
Proof.
  intros Hm Hk. eapply within_try; [exact Hm|].
  intros e [Hc|Hx]; destruct e; cbn in *; try discriminate; auto.
Qed.

Lemma within_for_each L {A} (xs : list A) (body : A -> M H unit) :
  (forall x, within H L (body x)) -> within H L (for_each H xs body).
Proof.
  intros Hb. induction xs as [|x xs IH]; cbn [for_each].
  - apply within_ret.
  - apply within_bind; [apply Hb | intros _; exact IH].
Qed.

Lemma within_weaken L L' {A} (m : M H A) :
  (forall ev, ev_ok L ev -> ev_ok L' ev) ->
  (forall e, exn_ok L e -> exn_ok L' e) ->
  (forall c, exit_ok L c -> exit_ok L' c) ->
  (may_replace L -> may_replace L') ->
  within H L m -> within H L' m.
Proof.
  intros Hev Hx Hc Hr Hm w. specialize (Hm w). destruct Hm as [Ha Ho].
  split; [eapply account_weaken; eassumption|].
  destruct ((m w).1); auto.
Qed.

(** ** The primitives *)

Lemma within_print L (s : string) : ev_ok L (EvPrint s) -> within H L (print H s).
Proof. intros Hp w. split; [apply account_note; auto | exact I]. Qed.

Lemma within_logging_info L (s : string) :
  ev_ok L (EvLog INFO s) -> within H L (logging_info H s).
Proof. intros Hp w. split; [apply account_note; auto | exact I]. Qed.

Lemma within_logging_error L (s : string) :
  ev_ok L (EvLog ERROR s) -> within H L (logging_error H s).
Proof. intros Hp w. split; [apply account_note; auto | exact I]. Qed.

Lemma within_input L (prompt : string) :
  (forall a, ev_ok L (EvInput prompt a)) -> exn_ok L EOFError ->
  within H L (input H prompt).
Proof.
  intros Hp He w. unfold input. destruct (w_stdin w) as [|a rest] eqn:Hin.
  - split; [apply account_refl | exact He].
  - split; [|exact I]. exists [EvInput prompt a].
    cbn [fst snd w_trace w_environ w_stdin w_os]. rewrite Hin.
    repeat split; auto.
Qed.

Lemma within_environ_get L (k : string) : within H L (environ_get H k).
Proof. intros w. split; [apply account_refl | exact I]. Qed.

Lemma within_environ_set L (k v : string) :
  ev_ok L (EvSetenv k v) -> within H L (environ_set H k v).
Proof.
  intros Hp w. split; [|exact I]. exists [EvSetenv k v].
  unfold environ_set. cbn [fst snd w_trace w_environ w_stdin w_os].
  repeat split; auto.
Qed.

Lemma within_getcwd L : within H L (getcwd H).
Proof. intros w. split; [apply account_refl | exact I]. Qed.

Lemma within_abspath L (p : string) : within H L (abspath H p).
Proof. intros w. split; [apply account_refl | exact I]. Qed.

Lemma within_path_exists L (p : string) : within H L (path_exists H p).
Proof. intros w. split; [apply account_refl | exact I]. Qed.

Lemma within_which L (tool : string) : within H L (which H tool).
Proof. intros w. split; [apply account_refl | exact I]. Qed.

Lemma within_listdir L (p : string) :
  (forall e, exn_ok L e) -> within H L (listdir H p).
Proof.
  intros He w. unfold listdir. destruct (os_listdir H (w_os w) p);
    (split; [apply account_refl | cbn; auto]).
Qed.

Lemma within_makedirs L (p : string) :
  ev_ok L (EvMakedirs p) -> (forall e, exn_ok L e) -> within H L (makedirs H p).
Proof.
  intros Hp He w. unfold makedirs.
  destruct (os_makedirs H (w_os w) p) as [[e|] o];
    (split; [apply account_os; auto | cbn; auto]).
Qed.

Lemma within_chdir L (p : string) :
  ev_ok L (EvChdir p) -> (forall e, exn_ok L e) -> within H L (chdir H p).
Proof.
  intros Hp He w. unfold chdir. destruct (os_chdir H (w_os w) p) as [e|o].
  - split; [apply account_refl | cbn; auto].
  - split; [apply account_os; auto | exact I].
Qed.

Lemma within_open_r L (p : string) :
  (forall e, exn_ok L e) -> within H L (open_r H p).
Proof.
  intros He w. unfold open_r. destruct (os_open_r H (w_os w) p);
    (split; [apply account_refl | cbn; auto]).
Qed.

Lemma within_load_with L (parse : string -> exn + pyval) (p : string) :
  ev_ok L (EvParse p) -> (forall e, exn_ok L e) ->
  within H L (load_with H parse p).
Proof.
  intros Hp He w. unfold load_with.
  destruct (os_read H (w_os w) p) as [e|text];
    [|destruct (parse text)];
    (split; [apply account_note; auto | cbn; auto]).
Qed.

Lemma within_yaml_dump_to L (p : string) (data : pyval) :
  ev_ok L (EvWrite p (yaml_dump H data)) -> (forall e, exn_ok L e) ->
  within H L (yaml_dump_to H p data).
Proof.
  intros Hp He w. unfold yaml_dump_to.
  destruct (os_write H (w_os w) p (yaml_dump H data)) as [[e|] o];
    (split; [apply account_os; auto | cbn; auto]).
Qed.

Lemma within_subprocess_run L (args : list pyval) :
  (forall a, as_strs args = Some a -> ev_ok L (EvRun a)) ->
  (as_strs args = None -> forall msg, exn_ok L (TypeError msg)) ->
  (forall a c, exn_ok L (CalledProcessError a c)) ->
  (forall msg, exn_ok L (OSError msg)) ->
  within H L (subprocess_run H args).
Proof.
  intros Hp Hty Hcp Hos w. unfold subprocess_run.
  destruct (as_strs args) as [a|].
  - destruct (spawn H (w_os w) (w_environ w) a) as [[[|c|c]|msg] o];
      (split; [apply account_os; auto | cbn; auto]).
  - split; [apply account_refl | cbn; auto].
Qed.

Lemma within_execv L (path : string) (argv : list string) :
  (forall env, ev_ok L (EvExec path argv env)) -> (forall e, exn_ok L e) ->
  may_replace L -> within H L (execv H path argv).
Proof.
  intros Hp He Hr w. unfold execv.
  destruct (os_execv H (w_os w) (w_environ w) path argv);
    (split; [apply account_note; auto | cbn; auto]).
Qed.

Lemma any_exn_ok ks cs rep (e : exn) : exn_ok (lim ks any_exn cs rep) e.
Proof. destruct e; reflexivity. Qed.

(** Discharging the side conditions of limits given by lists. *)
Ltac side :=
  cbn [with_exn ev_ok exn_ok exit_ok may_replace lim marked_lim];
  intros;
  try (match goal with Hn : as_strs _ = None |- _ => cbn in Hn end);
  try discriminate;
  try (left; reflexivity);
  try (right; cbn; reflexivity);
  try reflexivity;
  try exact I;
  try (split; [exact I | reflexivity]);
  try (split; [assumption | reflexivity]);
  try (match goal with e : exn |- _ => destruct e; cbn; auto; reflexivity end).

Ltac step :=
  lazymatch goal with
  | |- within _ _ (ret _ _) => apply within_ret
  | |- within _ _ (bind _ _ _) => apply within_bind; [|intros ?]
  | |- within _ _ (for_each _ _ _) => apply within_for_each; intros ?
  | |- within _ _ (try_except _ _ (except_Exception _ _)) =>
      apply within_try_all; [|intros ?]
  | |- within _ _ (try_except _ _ (except_CalledProcessError _ _)) =>
      apply within_try_called; [|intros ? ?]
  | |- within _ _ (print _ _) => apply within_print; side
  | |- within _ _ (logging_info _ _) => apply within_logging_info; side
  | |- within _ _ (logging_error _ _) => apply within_logging_error; side
  | |- within _ _ (input _ _) => apply within_input; side
  | |- within _ _ (environ_get _ _) => apply within_environ_get
  | |- within _ _ (environ_set _ _ _) => apply within_environ_set; side
  | |- within _ _ (getcwd _) => apply within_getcwd
  | |- within _ _ (abspath _ _) => apply within_abspath
  | |- within _ _ (path_exists _ _) => apply within_path_exists
  | |- within _ _ (which _ _) => apply within_which
  | |- within _ _ (listdir _ _) => apply within_listdir; side
  | |- within _ _ (makedirs _ _) => apply within_makedirs; side
  | |- within _ _ (chdir _ _) => apply within_chdir; side
  | |- within _ _ (open_r _ _) => apply within_open_r; side
  | |- within _ _ (load_with _ _ _) => apply within_load_with; side
  | |- within _ _ (yaml_dump_to _ _ _) => apply within_yaml_dump_to; side
  | |- within _ _ (subprocess_run _ _) => apply within_subprocess_run; side
  | |- within _ _ (execv _ _ _) => apply within_execv; side
  | |- within _ _ (sys_exit _ _) => apply within_exit; side
  | |- within _ _ (raise _ _) => apply within_raise; side
  | |- within _ _ (let _ := _ in _) => cbv zeta
  | |- within _ _ (if ?b then _ else _) => destruct b
  | |- within _ _ (match ?x with _ => _ end) => destruct x
  end.

Ltac steps := repeat step.

(** Inclusion of limits given by lists. *)
Ltac sub :=
  cbn [with_exn ev_ok exn_ok exit_ok may_replace lim marked_lim];
  first
  [ intros [] ; cbn; intros; try discriminate; try reflexivity;
    try (split; [exact I | reflexivity]); auto; fail
  | intros c Hc; cbn in *; repeat (destruct (Z.eqb c _)); cbn in *; congruence
  | intros; try discriminate; try reflexivity; auto; fail ].

Ltac weaken_to lem :=
  eapply within_weaken; [| | | | apply lem]; try sub.

(** ** What each function may do *)

Lemma config_get_within L (c : pyval) (k : string) (d : pyval) :
  (forall msg, exn_ok L (AttributeError msg)) -> within H L (config_get H c k d).
Proof. intros Hx. unfold config_get. destruct c; steps; auto. Qed.

(** [load_config] reports and parses; it never raises and never exits. *)
Lemma load_config_within (f : string) :
  within H (lim [KPrint; KLog; KParse] [] [] false) (load_config H f).
Proof. unfold load_config, json_load, yaml_load. steps. Qed.

Lemma save_config_within self :
  within H (lim [KPrint; KLog; KWrite] [] [] false) (save_config H self).
Proof. unfold save_config. steps. Qed.

Lemma detect_pkg_manager_within (c : pyval) :
  within H (lim [] [XAttribute] [] false) (detect_pkg_manager H c).
Proof.
  unfold detect_pkg_manager.
  apply within_bind; [apply config_get_within; side|intros ?]. steps.
Qed.

Lemma join_env_path_within L (d : string) (n : pyval) :
  (forall msg, exn_ok L (TypeError msg)) -> within H L (join_env_path H d n).
Proof. intros Hx. unfold join_env_path. destruct n; steps; auto. Qed.

Lemma init_within (config_file env_name env_dir python_ver : option string)
    (save_defaults auto_activate : bool) :
  within H (lim (if save_defaults then [KPrint; KLog; KParse; KWrite]
                 else [KPrint; KLog; KParse])
                [XAttribute; XType] [] false)
    (EZVenv__init__ H config_file env_name env_dir python_ver
       save_defaults auto_activate).
Proof.
  unfold EZVenv__init__.
  apply within_bind; [weaken_to load_config_within; destruct save_defaults; sub
                     |intros ?].
  apply within_bind;
    [destruct (arg_given env_name); [step | apply config_get_within; side]
    |intros ?].
  apply within_bind; [destruct (arg_given env_dir); step | intros ?].
  apply within_bind; [step | intros ?].
  apply within_bind;
    [destruct (arg_given python_ver); [step | apply config_get_within; side]
    |intros ?].
  apply within_bind; [apply join_env_path_within; side | intros ?].
  apply within_bind; [weaken_to detect_pkg_manager_within | intros ?].
  apply within_bind; [apply config_get_within; side | intros ?].
  apply within_bind; [apply config_get_within; side | intros ?].
  apply within_bind; [|intros ?; step].
  destruct save_defaults; [weaken_to save_config_within | step].
Qed.

Lemma update_core_components_within self :
  within H (lim [KPrint; KLog; KRun] [XOS] [] false)
    (update_core_components H self).
Proof. unfold update_core_components. steps. Qed.

Lemma create_env_within self :
  within H (lim [KPrint; KLog; KRun] [XOS; XType] [1%Z] false)
    (create_env H self).
Proof.
  unfold create_env.
  apply within_bind; [step | intros found].
  apply within_bind; [|intros _].
  - destruct found; steps.
  - apply within_bind; [steps | intros _].
    weaken_to update_core_components_within.
Qed.

Lemma install_deps_within self :
  within H (lim [KPrint; KLog; KRun] [XOS] [] false) (install_deps H self).
Proof. unfold install_deps. steps. Qed.

Lemma update_deps_within self :
  within H (lim [KPrint; KLog; KRun] [XOS] [] false) (update_deps H self).
Proof. unfold update_deps. steps. Qed.

(** Setting the marker and replacing the process, as one step. *)
Lemma within_marked_exec L (path : string) (argv : list string) :
  ev_ok L (EvSetenv ACTIVATED "1") ->
  (forall env, env !! ACTIVATED = Some "1" -> ev_ok L (EvExec path argv env)) ->
  (forall e, exn_ok L e) -> may_replace L ->
  within H L (bind H (environ_set H ACTIVATED "1") (fun _ => execv H path argv)).
Proof.
  intros Hs Hx He Hr w. unfold bind, environ_set, execv, emit.
  cbn [fst snd w_trace w_environ w_stdin w_os].
  destruct (os_execv H _ _ _ _); cbn [fst snd w_trace w_environ w_stdin w_os];
    (split; [|cbn; auto]);
    exists [EvSetenv ACTIVATED "1";
            EvExec path argv (<[ACTIVATED := "1"]> (w_environ w))];
    rewrite <- !app_assoc;
    (repeat split; auto);
    repeat constructor; auto; apply Hx, lookup_insert_eq.
Qed.

Lemma within_marked_exec_try L (path : string) (argv : list string)
    (k : exn -> M H unit) :
  ev_ok L (EvSetenv ACTIVATED "1") ->
  (forall env, env !! ACTIVATED = Some "1" -> ev_ok L (EvExec path argv env)) ->
  may_replace L ->
  (forall e, within H L (k e)) ->
  within H L (bind H (environ_set H ACTIVATED "1")
                (fun _ => try_except H (execv H path argv) (except_Exception H k))).
Proof.
  intros Hs Hx Hr Hk w.
  assert (Hacc : account H (ev_ok L) w
            (World (w_os w) (<[ACTIVATED := "1"]> (w_environ w)) (w_stdin w)
               ((w_trace w ++ [EvSetenv ACTIVATED "1"]) ++
                [EvExec path argv (<[ACTIVATED := "1"]> (w_environ w))]))).
  { exists [EvSetenv ACTIVATED "1";
            EvExec path argv (<[ACTIVATED := "1"]> (w_environ w))].
    cbn [fst snd w_trace w_environ w_stdin w_os]. rewrite <- !app_assoc.
    repeat split; auto.
    repeat constructor; auto. apply Hx, lookup_insert_eq. }
  unfold bind, environ_set, try_except, except_Exception, execv, emit.
  cbn [fst snd w_trace w_environ w_stdin w_os].
  destruct (os_execv H _ _ _ _) as [e|];
    cbn [fst snd w_trace w_environ w_stdin w_os].
  - match goal with |- context [k e ?w2] =>
      destruct (Hk e w2) as [Ha Ho] end.
    split; [eapply account_trans; eassumption | exact Ho].
  - split; [exact Hacc | exact Hr].
Qed.

Ltac step_marked :=
  lazymatch goal with
  | |- within _ _ (bind _ (environ_set _ ACTIVATED _)
                     (fun _ => try_except _ (execv _ _ _) _)) =>
      apply within_marked_exec_try; [side | side | side | intros ?]
  | |- within _ _ (bind _ (environ_set _ ACTIVATED _) (fun _ => execv _ _ _)) =>
      apply within_marked_exec; side
  | |- _ => step
  end.

Lemma activate_env_within self :
  within H (marked_lim [KPrint; KInput; KRun; KSetenv; KExec] [0%Z; 1%Z])
    (activate_env H self).
Proof. unfold activate_env. repeat step_marked. Qed.

Lemma setup_env_within self :
  within H (marked_lim [KPrint; KLog; KInput; KRun; KSetenv; KExec] [0%Z; 1%Z])
    (setup_env H self).
Proof.
  unfold setup_env.
  apply within_bind; [weaken_to create_env_within | intros _].
  apply within_bind; [step | intros _].
  apply within_bind; [weaken_to install_deps_within | intros _].
  apply within_bind; [weaken_to update_deps_within | intros _].
  apply within_bind; [step | intros _].
  destruct (autoActivate self); [weaken_to activate_env_within | step].
Qed.

(** With auto-activation off, [setup_env] is [create_env], [install_deps]
    and [update_deps] plus reports. *)
Lemma setup_env_passive_within self :
  autoActivate self = false ->
  within H (lim [KPrint; KLog; KRun] [XOS; XType] [1%Z] false) (setup_env H self).
Proof.
  intros Hoff. unfold setup_env. rewrite Hoff.
  apply within_bind; [apply create_env_within | intros _].
  apply within_bind; [step | intros _].
  apply within_bind; [weaken_to install_deps_within | intros _].
  apply within_bind; [weaken_to update_deps_within | intros _].
  steps.
Qed.

Lemma directory_preparation_within (env_dir config_file : option string) :
  within H (lim [KPrint; KInput; KMakedirs; KChdir] any_exn [0%Z] false)
    (init_env_directory_preparation H env_dir config_file).
Proof. unfold init_env_directory_preparation. steps. Qed.

Lemma environment_setup_within (env_name python_ver : option string)
    (save_defaults auto_activate : bool) (env_dir config_file : string) :
  within H (marked_lim [KPrint; KLog; KInput; KParse; KWrite; KRun; KSetenv; KExec]
                       [0%Z; 1%Z])
    (init_env_environment_setup H env_name python_ver save_defaults
       auto_activate env_dir config_file).
Proof.
  unfold init_env_environment_setup.
  apply within_bind; [weaken_to init_within; destruct save_defaults; sub
                     | intros env].
  apply within_bind; [weaken_to setup_env_within | intros _]. step.
Qed.

Lemma init_env_within (env_name env_dir python_ver config_file : option string)
    (save_defaults auto_activate : bool) :
  within H (marked_lim [KPrint; KLog; KInput; KMakedirs; KChdir; KParse; KWrite;
                        KRun; KSetenv; KExec] [0%Z; 1%Z])
    (init_env H env_name env_dir python_ver config_file save_defaults
       auto_activate).
Proof.
  unfold init_env.
  apply within_bind; [step | intros marker].
  destruct (bool_decide (marker = Some "1")); [steps|].
  apply within_bind; [weaken_to directory_preparation_within | intros ?].
  weaken_to environment_setup_within.
Qed.

Lemma main_within (command : string) (dir : option string) :
  within H (marked_lim [KPrint; KLog; KInput; KMakedirs; KChdir; KParse; KWrite;
                        KRun; KSetenv; KExec] [0%Z; 1%Z])
    (main H command dir).
Proof.
  unfold main. destruct (String.eqb command "init").
  - apply within_bind; [apply init_env_within | intros ?; step].
  - apply within_bind; [weaken_to init_within | intros ezvenv].
    destruct (String.eqb command "install"); [weaken_to install_deps_within|].
    destruct (String.eqb command "update"); [weaken_to update_deps_within|step].
Qed.

(** The install and update commands construct the object with defaults and
    call one method. *)
Lemma main_deps_within (command : string) (dir : option string) :
  String.eqb command "init" = false ->
  within H (lim [KPrint; KLog; KParse; KRun] [XOS; XType; XAttribute] [] false)
    (main H command dir).
Proof.
  intros Hc. unfold main. rewrite Hc.
  apply within_bind; [weaken_to init_within | intros ezvenv].
  destruct (String.eqb command "install"); [weaken_to install_deps_within|].
  destruct (String.eqb command "update"); [weaken_to update_deps_within|step].
Qed.

(** ** Reading the account *)

Lemma env_after_kept (evs : list event) (env : gmap string string) :
  Forall (fun ev => is_setenv ev = false) evs -> env_after evs env = env.
Proof.
  intros Hall. revert env. induction Hall as [|ev evs Hev _ IH]; intros env.
  - reflexivity.
  - unfold env_after. cbn [fold_left]. destruct ev; try discriminate; apply IH.
Qed.

Lemma answers_none (evs : list event) :
  Forall (fun ev => is_input ev = false) evs -> answers evs = 0.
Proof.
  unfold answers. induction 1 as [|ev evs Hev _ IH]; [reflexivity|].
  rewrite filter_cons. destruct (decide (is_input ev = true)); [congruence|].
  exact IH.
Qed.

Lemma account_env_kept (P : event -> Prop) w w' :
  (forall ev, P ev -> is_setenv ev = false) ->
  account H P w w' -> w_environ w' = w_environ w.
Proof.
  intros Hp (evs & _ & Hall & He & _). rewrite He. apply env_after_kept.
  eapply Forall_impl; eauto.
Qed.

Lemma account_stdin_kept (P : event -> Prop) w w' :
  (forall ev, P ev -> is_input ev = false) ->
  account H P w w' -> w_stdin w' = w_stdin w.
Proof.
  intros Hp (evs & _ & Hall & _ & Hs & _). rewrite Hs, answers_none.
  - reflexivity.
  - eapply Forall_impl; eauto.
Qed.

Lemma account_os_kept (P : event -> Prop) w w' :
  (forall ev, P ev -> touches_os ev = false) ->
  account H P w w' -> w_os w' = w_os w.
Proof.
  intros Hp (evs & _ & Hall & _ & _ & Ho). apply Ho.
  eapply Forall_impl; eauto.
Qed.

Lemma account_events (P : event -> Prop) w w' :
  account H P w w' -> exists evs, w_trace w' = w_trace w ++ evs /\ Forall P evs.
Proof. intros (evs & Ht & Hall & _). eauto. Qed.

Ltac by_kind := intros []; cbn; intros; first [reflexivity | discriminate].

(** X1: [load_config] only reads.  Whatever the file holds, the file
    system, the working directory, the environment and the pending input
    are as before, and it emits only log records, parse attempts and
    printed lines. *)
Theorem load_config_only_reads (f : string) w :
  let r := load_config H f w in
  w_os r.2 = w_os w /\
  w_environ r.2 = w_environ w /\
  w_stdin r.2 = w_stdin w /\
  exists evs, w_trace r.2 = w_trace w ++ evs /\
    Forall (fun ev => mutating ev = false /\ is_input ev = false) evs.
Proof.
  intros r. subst r. destruct (load_config_within f w) as [Hacc _].
  split; [eapply account_os_kept; [|exact Hacc]; by_kind|].
  split; [eapply account_env_kept; [|exact Hacc]; by_kind|].
  split; [eapply account_stdin_kept; [|exact Hacc]; by_kind|].
  destruct (account_events _ _ _ Hacc) as (evs & Ht & Hall).
  exists evs. split; [exact Ht|].
  eapply Forall_impl; [exact Hall|].
  intros []; cbn; intros; first [split; reflexivity | discriminate].
Qed.


(** X3: with auto-activation off, [setup_env] never replaces the process
    image, leaves the environment variables and the pending input as they
    were, emits only printed lines, log records and child processes, and
    the only exit code it can end with is 1 (a failed creation). *)
Theorem setup_env_without_activation self w :
  autoActivate self = false ->
  let r := setup_env H self w in
  r.1 <> Replaced /\
  (forall c, r.1 = Exit c -> c = 1%Z) /\
  w_environ r.2 = w_environ w /\
  w_stdin r.2 = w_stdin w /\
  exists evs, w_trace r.2 = w_trace w ++ evs /\
    Forall (fun ev => is_exec ev = false /\ is_setenv ev = false /\
                      is_input ev = false /\ is_write ev = false) evs.
Proof.
  intros Hoff r. subst r.
  destruct (setup_env_passive_within self Hoff w) as [Hacc Hout].
  split; [intros Hr; rewrite Hr in Hout; discriminate|].
  split.
  { intros c Hr. rewrite Hr in Hout. cbn in Hout.
    destruct (Z.eqb_spec c 1); [assumption|discriminate]. }
  split; [eapply account_env_kept; [|exact Hacc]; by_kind|].
  split; [eapply account_stdin_kept; [|exact Hacc]; by_kind|].
  destruct (account_events _ _ _ Hacc) as (evs & Ht & Hall).
  exists evs. split; [exact Ht|].
  eapply Forall_impl; [exact Hall|].
  intros []; cbn; intros; first [repeat split; reflexivity | discriminate].
Qed.

(** X4: once the arguments are parsed, whatever the command, the host and
    the input, the program ends in one of three ways: exit status 0, exit
    status 1 (an uncaught exception or [sys.exit(1)]), or a replaced process
    image; [sys.exit] is only ever called with 0 or 1. *)
Theorem main_exit_status (command : string) (dir : option string) w :
  let r := main H command dir w in
  (forall c, r.1 = Exit c -> c = 0%Z \/ c = 1%Z) /\
  (exit_status r.1 = Some 0%Z \/ exit_status r.1 = Some 1%Z \/
   exit_status r.1 = None).
Proof.
  intros r. subst r. destruct (main_within command dir w) as [_ Hout].
  assert (Hc : forall c, (main H command dir w).1 = Exit c -> c = 0%Z \/ c = 1%Z).
  { intros c Hr. rewrite Hr in Hout. cbn in Hout.
    destruct (Z.eqb_spec c 0); [auto|].
    destruct (Z.eqb_spec c 1); [auto|discriminate]. }
  split; [exact Hc|].
  destruct (_.1) as [a|e|c|] eqn:Hr; cbn; auto.
  destruct (Hc c eq_refl) as [-> | ->]; auto.
Qed.

(** X5: in [main], the install and update commands never call [sys.exit],
    never replace the process, never prompt, and never create a directory,
    change directory, write a file or assign an environment variable: they
    read the config, report, and start child processes at most.  (The
    statements run at import, [module_import], are not part of [main].) *)
Theorem main_install_update_passive (command : string) (dir : option string) w :
  String.eqb command "init" = false ->
  let r := main H command dir w in
  (r.1 = Ret tt \/ exists e, r.1 = Raise e) /\
  w_environ r.2 = w_environ w /\
  w_stdin r.2 = w_stdin w /\
  exists evs, w_trace r.2 = w_trace w ++ evs /\
    Forall (fun ev => kind_of ev = KPrint \/ kind_of ev = KLog \/
                      kind_of ev = KParse \/ kind_of ev = KRun) evs.
Proof.
  intros Hc r. subst r.
  destruct (main_deps_within command dir Hc w) as [Hacc Hout].
  split.
  { destruct (_.1) as [[]|e|c|]; cbn in Hout; eauto; discriminate. }
  split; [eapply account_env_kept; [|exact Hacc]; by_kind|].
  split; [eapply account_stdin_kept; [|exact Hacc]; by_kind|].
  destruct (account_events _ _ _ Hacc) as (evs & Ht & Hall).
  exists evs. split; [exact Ht|].
  eapply Forall_impl; [exact Hall|].
  intros []; cbn; intros; try discriminate; auto.
Qed.

(** X6: re-entry is cut short.  Every process image that [init_env]
    starts through [os.execv] inherits an environment in which [init_env],
    called again with any arguments, returns the working directory at once
    and does nothing else but print one line. *)
Theorem init_env_reentry_short_circuits
    (env_name env_dir python_ver config_file : option string)
    (save_defaults auto_activate : bool) w :
  exists evs,
    w_trace (init_env H env_name env_dir python_ver config_file save_defaults
               auto_activate w).2 = w_trace w ++ evs /\
    forall path argv env, In (EvExec path argv env) evs ->
    forall (env_name' env_dir' python_ver' config_file' : option string)
           (save_defaults' auto_activate' : bool) (w' : world H),
      w_environ w' = env ->
      init_env H env_name' env_dir' python_ver' config_file' save_defaults'
        auto_activate' w'
      = (Ret (os_getcwd H (w_os w')),
         World (w_os w') (w_environ w') (w_stdin w')
           (w_trace w' ++
            [EvPrint "Environment already activated, skipping re-initialization."])).
Proof.
  destruct (init_env_within env_name env_dir python_ver config_file save_defaults
              auto_activate w) as [Hacc _].
  destruct (account_events _ _ _ Hacc) as (evs & Ht & Hall).
  exists evs. split; [exact Ht|].
  intros path argv env Hin en ed pv cf sd aa w' Henv.
  rewrite Forall_forall in Hall.
  assert (Hm : exec_marked (EvExec path argv env)).
  { apply (Hall (EvExec path argv env)). apply list_elem_of_In. exact Hin. }
  cbn in Hm. subst env. unfold init_env. unfold_m.
  change ACTIVATED with "EZVENV_ALREADY_ACTIVATED". rewrite Hm.
  rewrite bool_decide_eq_true_2 by reflexivity. reflexivity.
Qed.

(** ** The config store, continued *)

(** X7: a config file that opens, reads and parses is returned as parsed,
    with the JSON parser for [*.json] and the YAML parser for [*.yaml] and
    [*.yml]; an empty or otherwise falsy document (None, an empty mapping
    or list, 0, false, the empty string) is replaced by the empty fragment.
    One INFO record is logged and nothing is printed. *)
Theorem load_config_returns_document (f text : string) (v : pyval) w :
  os_exists H (w_os w) f = true ->
  os_open_r H (w_os w) f = None ->
  os_read H (w_os w) f = inr text ->
  (endswith f ".json" = true /\ json_loads H text = inr v) \/
  (endswith f ".json" = false /\
   endswith f ".yaml" || endswith f ".yml" = true /\
   yaml_safe_load H text = inr v) ->
  load_config H f w =
    (Ret (if truthy v then v else VDict ∅),
     World (w_os w) (w_environ w) (w_stdin w)
       (w_trace w ++
        [EvParse f; EvLog INFO ("Configuration loaded from " +:+ f)])).
Proof.
  intros Hex Hop Hrd Hparse. unfold load_config. unfold_m. msimpl.
  rewrite Hex, Hop. msimpl.
  destruct Hparse as [[Hj Hp] | (Hj & Hy & Hp)].
  - rewrite Hj. msimpl. rewrite Hrd, Hp. msimpl.
    rewrite <- !app_assoc. reflexivity.
  - rewrite Hj, Hy. msimpl. rewrite Hrd, Hp. msimpl.
    rewrite <- !app_assoc. reflexivity.
Qed.


(** ** The constructor, continued *)

Lemma bind_ret_inv {A B} (m : M H A) (k : A -> M H B) w (b : B) :
  (bind H m k w).1 = Ret b ->
  exists a w1, m w = (Ret a, w1) /\ (k a w1).1 = Ret b.
Proof.
  unfold bind. destruct (m w) as [[a|e|c|] w1]; cbn; try discriminate. eauto.
Qed.

Lemma detect_pkg_manager_ret (c pm : pyval) w w1 :
  detect_pkg_manager H c w = (Ret pm, w1) ->
  (exists m, c = VDict m) /\ py_ne_str pm "auto" = true /\ w1 = w.
Proof.
  unfold detect_pkg_manager, config_get. destruct c; unfold_m; msimpl;
    try discriminate.
  intros Hd. split; [eauto|].
  destruct (py_ne_str (default (VStr "auto") (m !! "pkgManager")) "auto") eqn:Hne.
  - inversion Hd; subst. auto.
  - repeat (destruct (bool_decide _) in Hd); inversion Hd; subst; auto.
Qed.

Lemma init_ret_inv
    (config_file env_name env_dir python_ver : option string)
    (save_defaults auto_activate : bool) w self :
  (EZVenv__init__ H config_file env_name env_dir python_ver
     save_defaults auto_activate w).1 = Ret self ->
  exists (m : gmap string pyval) (n : string),
    config self = VDict m /\
    envName self = VStr n /\
    envPath self = path_join H [envDir self; n] /\
    envDir self = path_abspath H (w_os w)
                    (default (os_getcwd H (w_os w)) (arg_given env_dir)) /\
    configFile self = default (path_join H [CONFIG_DIR H; "ezvenv.yaml"])
                              (arg_given config_file) /\
    py_ne_str (pkgManager self) "auto" = true /\
    autoActivate self = auto_activate.
Proof.
  intros Hret. unfold EZVenv__init__ in Hret.
  apply bind_ret_inv in Hret as (c & w1 & Hload & Hret).
  assert (Hos : w_os w1 = w_os w).
  { match type of Hload with load_config H ?f w = _ =>
      pose proof (load_config_frame H f w) as (Ho & _) end.
    rewrite Hload in Ho. exact Ho. }
  apply bind_ret_inv in Hret as (name & w2 & Hname & Hret).
  assert (w2 = w1) as ->.
  { destruct (arg_given env_name); [inversion Hname; reflexivity|].
    unfold config_get in Hname. destruct c; inversion Hname; reflexivity. }
  apply bind_ret_inv in Hret as (dir & w3 & Hdir & Hret).
  assert (w3 = w1 /\ dir = default (os_getcwd H (w_os w)) (arg_given env_dir))
    as [-> ->].
  { destruct (arg_given env_dir); inversion Hdir; subst; cbn;
      rewrite ?Hos; auto. }
  apply bind_ret_inv in Hret as (adir & w4 & Habs & Hret).
  inversion Habs; subst adir w4. clear Habs.
  apply bind_ret_inv in Hret as (py & w5 & Hpy & Hret).
  assert (w5 = w1) as ->.
  { destruct (arg_given python_ver); [inversion Hpy; reflexivity|].
    unfold config_get in Hpy. destruct c; inversion Hpy; reflexivity. }
  apply bind_ret_inv in Hret as (path & w6 & Hpath & Hret).
  unfold join_env_path in Hpath. destruct name as [| | |n| |]; try discriminate.
  inversion Hpath; subst path w6. clear Hpath.
  apply bind_ret_inv in Hret as (pm & w7 & Hpm & Hret).
  apply detect_pkg_manager_ret in Hpm as ([m ->] & Hne & ->).
  apply bind_ret_inv in Hret as (ai & w8 & Hai & Hret).
  inversion Hai; subst ai w8. clear Hai.
  apply bind_ret_inv in Hret as (au & w9 & Hau & Hret).
  inversion Hau; subst au w9. clear Hau.
  apply bind_ret_inv in Hret as (u & w10 & _ & Hret).
  inversion Hret; subst self. cbn.
  exists m, n. rewrite Hos.
  repeat split; try reflexivity; assumption.
Qed.

(** X9: every object the constructor returns is well formed: its config
    is a mapping, its name is a string, its path is the join of its
    directory and its name, its directory is [os.path.abspath] of the
    directory argument (or of the working directory) at the time of the
    call, its config file is the argument or the per-user default, and its
    package manager is never "auto". *)
Theorem init_result_well_formed
    (config_file env_name env_dir python_ver : option string)
    (save_defaults auto_activate : bool) w self :
  (EZVenv__init__ H config_file env_name env_dir python_ver
     save_defaults auto_activate w).1 = Ret self ->
  exists (m : gmap string pyval) (n : string),
    config self = VDict m /\
    envName self = VStr n /\
    envPath self = path_join H [envDir self; n] /\
    envDir self = path_abspath H (w_os w)
                    (default (os_getcwd H (w_os w)) (arg_given env_dir)) /\
    configFile self = default (path_join H [CONFIG_DIR H; "ezvenv.yaml"])
                              (arg_given config_file) /\
    py_ne_str (pkgManager self) "auto" = true /\
    autoActivate self = auto_activate.
Proof. apply init_ret_inv. Qed.


(** X10: a settings document that is not a mapping (a YAML list, string or
    number) is not rejected by [load_config] but makes the constructor
    raise [AttributeError]; nothing has been written by then. *)
Theorem init_rejects_non_mapping
    (config_file env_name env_dir python_ver : option string)
    (save_defaults auto_activate : bool) w (v : pyval) :
  let f := default (path_join H [CONFIG_DIR H; "ezvenv.yaml"])
                   (arg_given config_file) in
  (load_config H f w).1 = Ret v ->
  (forall m, v <> VDict m) ->
  let r := EZVenv__init__ H config_file env_name env_dir python_ver
             save_defaults auto_activate w in
  (exists msg, r.1 = Raise (AttributeError msg)) /\
  r.2 = (load_config H f w).2.
Proof.
  intros f Hload Hv r. subst r.
  destruct (load_config H f w) as [r1 w1] eqn:Hl. cbn [fst snd] in *. subst r1.
  assert (exists msg, EZVenv__init__ H config_file env_name env_dir python_ver
            save_defaults auto_activate w = (Raise (AttributeError msg), w1))
    as [msg Heq].
  { unfold EZVenv__init__.
    replace (match arg_given config_file with
             | Some f0 => f0
             | None => path_join H [CONFIG_DIR H; "ezvenv.yaml"]
             end) with f by (subst f; destruct (arg_given config_file); reflexivity).
    unfold bind at 1. rewrite Hl.
    destruct v as [| | | | |m]; try (exfalso; apply (Hv m); reflexivity);
      unfold detect_pkg_manager, join_env_path, config_get; unfold_m; msimpl;
      destruct (arg_given env_name); msimpl;
      destruct (arg_given env_dir); msimpl;
      destruct (arg_given python_ver); msimpl;
      eexists; reflexivity. }
  rewrite Heq. split; [eexists; reflexivity | reflexivity].
Qed.

(** X11: a stored environment name that is not a string (and no explicit
    name) makes the constructor raise [TypeError] where it joins directory
    and name; nothing has been written by then. *)
Theorem init_rejects_non_string_name
    (config_file env_dir python_ver : option string)
    (save_defaults auto_activate : bool) w
    (m : gmap string pyval) (v : pyval) :
  let f := default (path_join H [CONFIG_DIR H; "ezvenv.yaml"])
                   (arg_given config_file) in
  (load_config H f w).1 = Ret (VDict m) ->
  m !! "envName" = Some v ->
  (forall s, v <> VStr s) ->
  let r := EZVenv__init__ H config_file None env_dir python_ver
             save_defaults auto_activate w in
  (exists msg, r.1 = Raise (TypeError msg)) /\
  r.2 = (load_config H f w).2.
Proof.
  intros f Hload Hm Hv r. subst r.
  destruct (load_config H f w) as [r1 w1] eqn:Hl. cbn [fst snd] in *. subst r1.
  assert (exists msg, EZVenv__init__ H config_file None env_dir python_ver
            save_defaults auto_activate w = (Raise (TypeError msg), w1))
    as [msg Heq].
  { unfold EZVenv__init__.
    replace (match arg_given config_file with
             | Some f0 => f0
             | None => path_join H [CONFIG_DIR H; "ezvenv.yaml"]
             end) with f by (subst f; destruct (arg_given config_file); reflexivity).
    unfold bind at 1. rewrite Hl.
    unfold detect_pkg_manager, join_env_path, config_get; unfold_m; msimpl.
    cbn [arg_given]. rewrite Hm. cbn [default from_option id].
    destruct v as [| | |s| |]; try (exfalso; apply (Hv s); reflexivity);
      destruct (arg_given env_dir); msimpl;
      destruct (arg_given python_ver); msimpl;
      try destruct (m !! "pythonVer"); msimpl;
      eexists; reflexivity. }
  rewrite Heq. split; [eexists; reflexivity | reflexivity].
Qed.

(** ** Child processes *)











(** ** Activation, continued *)





(** ** Directory preparation, continued *)

(** X22: no prompt for a fresh or empty directory.  A target directory
    that does not exist is created and entered, one that exists and is
    empty is entered, and in both cases [init_env] goes on to the
    environment setup with that directory, the config file
    [<cwd>/ezvenv.yaml] and the pending input untouched. *)
Theorem init_env_enters_without_prompt
    (env_name python_ver : option string) (save_defaults auto_activate : bool)
    w (d : string) :
  w_environ w !! ACTIVATED <> Some "1" ->
  d <> "" ->
  (forall o1 o2,
     os_exists H (w_os w) d = false ->
     os_makedirs H (w_os w) d = (None, o1) ->
     os_chdir H o1 d = inr o2 ->
     init_env H env_name (Some d) python_ver None save_defaults auto_activate w =
     init_env_environment_setup H env_name python_ver save_defaults auto_activate
       d (path_join H [os_getcwd H o2; "ezvenv.yaml"])
       (World o2 (w_environ w) (w_stdin w)
          (w_trace w ++
           [EvPrint ("Directory '" +:+ d +:+ "' does not exist. Creating it...");
            EvMakedirs d; EvChdir d]))) /\
  (forall o2,
     os_exists H (w_os w) d = true ->
     os_listdir H (w_os w) d = inr [] ->
     os_chdir H (w_os w) d = inr o2 ->
     init_env H env_name (Some d) python_ver None save_defaults auto_activate w =
     init_env_environment_setup H env_name python_ver save_defaults auto_activate
       d (path_join H [os_getcwd H o2; "ezvenv.yaml"])
       (World o2 (w_environ w) (w_stdin w) (w_trace w ++ [EvChdir d]))).
Proof.
  intros Hmark Hd.
  assert (Hno : bool_decide (w_environ w !! ACTIVATED = Some "1") = false)
    by (apply bool_decide_eq_false_2; exact Hmark).
  assert (Hgiven : arg_given (Some d) = Some d).
  { cbn. destruct (String.eqb_spec d ""); congruence. }
  split.
  - intros o1 o2 Hex Hmk Hcd.
    unfold init_env, init_env_directory_preparation. rewrite Hgiven.
    unfold_m. msimpl. rewrite Hno, Hex. cbn [negb arg_given]. msimpl.
    rewrite Hmk. msimpl. rewrite Hcd. msimpl.
    rewrite <- !app_assoc. reflexivity.
  - intros o2 Hex Hls Hcd.
    unfold init_env, init_env_directory_preparation. rewrite Hgiven.
    unfold_m. msimpl. rewrite Hno, Hex. cbn [negb arg_given]. msimpl.
    rewrite Hls. msimpl. rewrite Hcd. msimpl. reflexivity.
Qed.


(** ** The whole of [init_env] *)



Lemma environment_setup_passive_within (env_name python_ver : option string)
    (save_defaults : bool) (d cfg : string) :
  within H (lim [KPrint; KLog; KInput; KMakedirs; KChdir; KParse; KWrite; KRun]
                any_exn [0%Z; 1%Z] false)
    (init_env_environment_setup H env_name python_ver save_defaults false d cfg).
Proof.
  intros w.
  destruct (init_within (Some cfg) env_name (Some d) python_ver save_defaults
              false w) as [Ha Ho].
  assert (Ha' : account H
            (ev_ok (lim [KPrint; KLog; KInput; KMakedirs; KChdir; KParse; KWrite;
                         KRun] any_exn [0%Z; 1%Z] false)) w
            (EZVenv__init__ H (Some cfg) env_name (Some d) python_ver
               save_defaults false w).2).
  { eapply account_weaken; [|exact Ha]. destruct save_defaults; by_kind. }
  clear Ha.
  unfold init_env_environment_setup, bind.
  destruct (EZVenv__init__ H (Some cfg) env_name (Some d) python_ver
              save_defaults false w) as [[env|e|c|] w1] eqn:Hi;
    cbn [fst snd] in *.
  - assert (Hoff : autoActivate env = false).
    { assert (Hr : (EZVenv__init__ H (Some cfg) env_name (Some d) python_ver
                      save_defaults false w).1 = Ret env)
        by (rewrite Hi; reflexivity).
      apply init_ret_inv in Hr as (m & n & _ & _ & _ & _ & _ & _ & Haa).
      exact Haa. }
    destruct (setup_env_passive_within env Hoff w1) as [Ha2 Ho2].
    assert (Ha2' : account H
              (ev_ok (lim [KPrint; KLog; KInput; KMakedirs; KChdir; KParse;
                           KWrite; KRun] any_exn [0%Z; 1%Z] false)) w1
              (setup_env H env w1).2).
    { eapply account_weaken; [|exact Ha2]. by_kind. }
    destruct (setup_env H env w1) as [[u|e|c|] w2]; cbn [fst snd] in *;
      (split; [eapply account_trans; eassumption|]);
      cbn in *; auto.
    + destruct e; reflexivity.
    + destruct (Z.eqb c 1); [|discriminate]. apply orb_true_r.
  - split; [exact Ha'|]. destruct e; reflexivity.
  - cbn in Ho. discriminate.
  - cbn in Ho. discriminate.
Qed.

(** X25: with [auto_activate] off, [init_env] never replaces the process
    image and never assigns an environment variable: the environment after
    the call is the environment before it. *)
Theorem init_env_without_activation
    (env_name env_dir python_ver config_file : option string)
    (save_defaults : bool) w :
  let r := init_env H env_name env_dir python_ver config_file save_defaults
             false w in
  r.1 <> Replaced /\
  w_environ r.2 = w_environ w /\
  exists evs, w_trace r.2 = w_trace w ++ evs /\
    Forall (fun ev => is_exec ev = false /\ is_setenv ev = false) evs.
Proof.
  intros r. subst r.
  assert (Hw : within H
            (lim [KPrint; KLog; KInput; KMakedirs; KChdir; KParse; KWrite; KRun]
                 any_exn [0%Z; 1%Z] false)
            (init_env H env_name env_dir python_ver config_file save_defaults
               false)).
  { unfold init_env.
    apply within_bind; [step | intros marker].
    destruct (bool_decide (marker = Some "1")); [steps|].
    apply within_bind; [weaken_to directory_preparation_within | intros ?].
    apply environment_setup_passive_within. }
  destruct (Hw w) as [Hacc Hout].
  split; [intros Hr; rewrite Hr in Hout; discriminate|].
  split; [eapply account_env_kept; [|exact Hacc]; by_kind|].
  destruct (account_events _ _ _ Hacc) as (evs & Ht & Hall).
  exists evs. split; [exact Ht|].
  eapply Forall_impl; [exact Hall|].
  intros []; cbn; intros; first [split; reflexivity | discriminate].
Qed.

End Behaviour.

(** * Concrete runs on the test host *)

Import TestHost Samples.

(** C1, as stated, fails: the marker is present with the value "0", and
    [init_env] goes on to create the target directory. *)
Lemma init_env_marker_zero_proceeds :
  let w := start quiet bare [("EZVENV_ALREADY_ACTIVATED", "0")] [] in
  let r := init_env (host quiet) None (Some "/srv/new") None None false false w in
  is_Some (w_environ w !! "EZVENV_ALREADY_ACTIVATED") /\
  r.1 = Ret "/srv/new/.venv" /\
  In (EvMakedirs "/srv/new") (w_trace r.2) /\
  In (EvRun ["/usr/bin/python3"; "-m"; "venv"; "/srv/new/.venv"]) (w_trace r.2) /\
  os_getcwd (host quiet) (w_os r.2) = "/srv/new" /\
  os_getcwd (host quiet) (w_os w) = "/home/u".
Proof.
  vm_compute. repeat split; eauto 10.
Qed.

Lemma init_env_marker_short_circuit_witness :
  let w := start quiet busy [("EZVENV_ALREADY_ACTIVATED", "1")] [] in
  w_environ w !! ACTIVATED = Some "1" /\
  init_env (host quiet) None (Some "/srv/app") None None false true w
  = (Ret "/home/u",
     World (w_os w) (w_environ w) (w_stdin w)
       [EvPrint "Environment already activated, skipping re-initialization."]).
Proof.
  intros w.
  assert (Hm : w_environ w !! ACTIVATED = Some "1") by (vm_compute; reflexivity).
  split; [exact Hm|].
  exact (init_env_marker_short_circuit (host quiet) None (Some "/srv/app") None
           None false true w Hm).
Defined.

Lemma init_env_declined_is_clean_witness :
  let w := start quiet busy [] ["n"] in
  let r := init_env (host quiet) None (Some "/srv/app") None None false true w in
  (os_exists (host quiet) (w_os w) "/srv/app" = true /\
   os_listdir (host quiet) (w_os w) "/srv/app" = inr ["main.py"] /\
   declined "n" = true) /\
  exit_status r.1 = Some 0%Z /\
  w_os r.2 = w_os w /\
  w_environ r.2 = w_environ w /\
  exists evs, w_trace r.2 = w_trace w ++ evs /\
              Forall (fun ev => mutating ev = false) evs.
Proof.
  intros w r. split; [repeat split; vm_compute; reflexivity|].
  apply (init_env_declined_is_clean (host quiet) None None None false true w
           "/srv/app" "n" "main.py" [] []);
    [discriminate | vm_compute; reflexivity ..].
Defined.



(** C4, as stated, fails: with a config file named [ezvenv.cfg] the
    constructor loads, resolves and saves the settings, the file holds them,
    and the next load still returns the empty fragment. *)
Lemma round_trip_lost_for_cfg :
  let w := start quiet busy [] [] in
  let r := EZVenv__init__ (host quiet) (Some "/srv/app/ezvenv.cfg") None
             (Some "/srv/app") None true false w in
  exists self,
    r.1 = Ret self /\
    config_data self !! "envName" = Some (VStr ".venv") /\
    os_read (host quiet) (w_os r.2) "/srv/app/ezvenv.cfg" =
      inr (yaml_dump (host quiet) (VDict (config_data self))) /\
    yaml_safe_load (host quiet) (yaml_dump (host quiet) (VDict (config_data self)))
      = inr (VDict (config_data self)) /\
    (load_config (host quiet) "/srv/app/ezvenv.cfg" r.2).1 = Ret (VDict ∅).
Proof.
  intros w r. eexists. vm_compute. repeat split; reflexivity.
Qed.

Lemma save_then_load_round_trip_witness :
  let self := app_env "/srv/app/ezvenv.yaml" in
  let w := start quiet busy [] [] in
  endswith (configFile self) ".yaml" || endswith (configFile self) ".yml" = true /\
  exists m,
    (load_config (host quiet) (configFile self)
       (save_config (host quiet) self w).2).1 = Ret (VDict m) /\
    m !! "envName" = Some (envName self) /\
    m !! "envDir" = Some (VStr (envDir self)) /\
    m !! "pythonVer" = Some (pythonVer self) /\
    m !! "autoInstall" = Some (autoInstall self) /\
    m !! "autoUpdate" = Some (autoUpdate self) /\
    m !! "pkgManager" = Some (pkgManager self).
Proof.
  intros self w.
  assert (Hy : endswith (configFile self) ".yaml" ||
               endswith (configFile self) ".yml" = true)
    by (vm_compute; reflexivity).
  split; [exact Hy|].
  apply (save_then_load_round_trip (host quiet) self w
           (write (w_os w) (configFile self)
              (flat_yaml_dump (VDict (config_data self)))).2);
    vm_compute; reflexivity.
Defined.

(** C7, as stated, fails for the environment directory: the stored config
    holds [envDir: /opt/project], no directory is passed, and the constructor
    still resolves the working directory. *)
Lemma init_ignores_stored_directory :
  let w := start quiet stored [] [] in
  let r := EZVenv__init__ (host quiet) None None None None false false w in
  exists self m,
    r.1 = Ret self /\
    config self = VDict m /\
    m !! "envDir" = Some (VStr "/opt/project") /\
    envDir self = "/home/u" /\
    by_priority None (m !! "envDir") (VStr (os_getcwd (host quiet) (w_os w)))
      = VStr "/opt/project" /\
    envName self = VStr "env".
Proof.
  intros w r. eexists. eexists. vm_compute. repeat split; reflexivity.
Qed.

Lemma init_resolves_by_priority_witness :
  let w := start quiet stored [] [] in
  let m : gmap string pyval :=
    list_to_map [("envDir", VStr "/opt/project"); ("envName", VStr "env")] in
  ((load_config (host quiet) "/home/u/.EZVenv/ezvenv.yaml" w).1 = Ret (VDict m) /\
   by_priority (arg_given None) (m !! "envName") (VStr ".venv") = VStr "env") /\
  exists self,
    (EZVenv__init__ (host quiet) None None None None false false w).1 = Ret self /\
    envName self = VStr "env" /\
    pythonVer self = VStr "/usr/bin/python3" /\
    pkgManager self = VStr "pip".
Proof.
  intros w m.
  assert (Hl : (load_config (host quiet)
                  (default (path_join (host quiet)
                              [CONFIG_DIR (host quiet); "ezvenv.yaml"])
                           (arg_given None)) w).1 = Ret (VDict m))
    by (vm_compute; reflexivity).
  assert (Hn : by_priority (arg_given None) (m !! "envName") (VStr ".venv")
               = VStr "env") by (vm_compute; reflexivity).
  split; [split; [exact Hl | exact Hn]|].
  destruct (init_resolves_by_priority (host quiet) None None None None false false
              w m "env" Hl Hn) as (self & Hr & He & Hp & _ & _ & _ & Hpip).
  exists self. split; [exact Hr|]. split; [rewrite He; exact Hn|].
  split; [rewrite Hp; vm_compute; reflexivity|].
  apply Hpip; vm_compute; reflexivity.
Defined.

(** C9, as stated, fails for an answer of one space: both prompts treat it
    as a refusal and end the process with status 0. *)
Lemma init_env_blank_answer_aborts :
  let w := start quiet stored [] [" "] in
  let r1 := init_env (host quiet) None (Some "/srv/app") None None false true w in
  let r2 := init_env (host quiet) None None None (Some "/srv/app/settings.cfg")
              false true w in
  strip " " = "" /\
  r1.1 = Exit 0 /\
  w_trace r1.2 =
    [EvInput "Directory '/srv/app' is not empty. Are you sure you want to initialize it? (Y/n): " " ";
     EvPrint "Initialization aborted."] /\
  r2.1 = Exit 0 /\
  w_trace r2.2 =
    [EvInput "Configuration file '/srv/app/settings.cfg' already exists. Overwrite? (Y/n): " " ";
     EvPrint "Initialization aborted due to existing configuration."].
Proof.
  vm_compute. repeat split; reflexivity.
Qed.

Lemma init_env_empty_answer_proceeds_witness :
  let w := start quiet stored [] [""] in
  let o1 : OS (host quiet) := Fsys (nodes stored) "/srv/app" in
  (w_environ w !! ACTIVATED <> Some "1" /\
   os_listdir (host quiet) (w_os w) "/srv/app"
     = inr ["main.py"; "settings.cfg"; "locked.cfg"] /\
   os_chdir (host quiet) (w_os w) "/srv/app" = inr o1) /\
  init_env (host quiet) None (Some "/srv/app") None None false true w =
  init_env_environment_setup (host quiet) None None false true
    "/srv/app" (path_join (host quiet) [os_getcwd (host quiet) o1; "ezvenv.yaml"])
    (World o1 (w_environ w) []
       (w_trace w ++
        [EvInput ("Directory '" +:+ "/srv/app" +:+
           "' is not empty. Are you sure you want to initialize it? (Y/n): ") "";
         EvChdir "/srv/app"])).
Proof.
  intros w o1.
  assert (Hm : w_environ w !! ACTIVATED <> Some "1") by (vm_compute; discriminate).
  assert (Hls : os_listdir (host quiet) (w_os w) "/srv/app"
                = inr ["main.py"; "settings.cfg"; "locked.cfg"])
    by (vm_compute; reflexivity).
  assert (Hcd : os_chdir (host quiet) (w_os w) "/srv/app" = inr o1)
    by (vm_compute; reflexivity).
  split; [repeat split; assumption|].
  destruct (init_env_empty_answer_proceeds (host quiet) None None false true w Hm)
    as (_ & Hdir & _).
  apply (Hdir "/srv/app" "main.py" ["settings.cfg"; "locked.cfg"] [] o1);
    [discriminate | vm_compute; reflexivity | exact Hls | reflexivity | exact Hcd].
Defined.

(** C10, as stated, fails for a file that exists but cannot be opened: the
    error is logged and the user is warned. *)
Lemma load_config_unreadable_cfg_warns :
  let w := start quiet stored [] [] in
  let f := "/srv/app/locked.cfg" in
  let r := load_config (host quiet) f w in
  os_exists (host quiet) (w_os w) f = true /\
  endswith f ".json" || endswith f ".yaml" || endswith f ".yml" = false /\
  r.1 = Ret (VDict ∅) /\
  w_trace r.2 =
    [EvLog ERROR "Error loading config file: Permission denied";
     EvPrint "⚠️ Error reading config file. Using default settings."].
Proof.
  vm_compute. repeat split; reflexivity.
Qed.

Lemma load_config_unknown_suffix_witness :
  let w := start quiet stored [] [] in
  let f := "/srv/app/settings.cfg" in
  (endswith f ".json" = false /\ endswith f ".yaml" = false /\
   endswith f ".yml" = false /\
   os_exists (host quiet) (w_os w) f = true /\
   os_open_r (host quiet) (w_os w) f = None) /\
  load_config (host quiet) f w =
    (Ret (VDict ∅),
     World (w_os w) (w_environ w) (w_stdin w)
           (w_trace w ++ [EvLog INFO ("Configuration loaded from " +:+ f)])).
Proof.
  intros w f.
  assert (Hj : endswith f ".json" = false) by (vm_compute; reflexivity).
  assert (Hy : endswith f ".yaml" = false) by (vm_compute; reflexivity).
  assert (Hm : endswith f ".yml" = false) by (vm_compute; reflexivity).
  assert (Hex : os_exists (host quiet) (w_os w) f = true)
    by (vm_compute; reflexivity).
  assert (Hop : os_open_r (host quiet) (w_os w) f = None)
    by (vm_compute; reflexivity).
  split; [repeat split; assumption|].
  exact (proj1 (load_config_unknown_suffix (host quiet) f w Hj Hy Hm Hex Hop)).
Defined.

(** A settings file named [*.json] is overwritten with YAML and is rejected
    by the JSON parser on the next load. *)
Example json_config_lost_after_save :
  let w := start quiet busy [] [] in
  let r := EZVenv__init__ (host quiet) (Some "/srv/app/ezvenv.json") None
             (Some "/srv/app") None true false w in
  exists evs,
    (load_config (host quiet) "/srv/app/ezvenv.json" r.2).1 = Ret (VDict ∅) /\
    w_trace (load_config (host quiet) "/srv/app/ezvenv.json" r.2).2 =
      w_trace r.2 ++ evs /\
    In (EvPrint "⚠️ Error reading config file. Using default settings.") evs.
Proof.
  eexists [_; _; _]. vm_compute. repeat split; eauto.
Qed.

(** ** Concrete runs for the further properties *)

Import MoreSamples.


Lemma setup_env_without_activation_witness :
  let self := app_env "/srv/app/ezvenv.yaml" in
  let w := start quiet busy [("PYTHONPATH", "/opt/lib")] ["y"] in
  let r := setup_env (host quiet) self w in
  autoActivate self = false /\
  r.1 <> Replaced /\ w_environ r.2 = w_environ w /\ w_stdin r.2 = w_stdin w.
Proof.
  intros self w r.
  destruct (setup_env_without_activation (host quiet) self w eq_refl)
    as (Hr & _ & He & Hs & _).
  repeat split; assumption.
Defined.

Lemma main_install_update_passive_witness :
  let w := start quiet with_manifest [] ["n"] in
  let r := main (host quiet) "install" None w in
  String.eqb "install" "init" = false /\
  (r.1 = Ret tt \/ exists e, r.1 = Raise e) /\
  w_environ r.2 = w_environ w /\ w_stdin r.2 = w_stdin w.
Proof.
  intros w r.
  destruct (main_install_update_passive (host quiet) "install" None w eq_refl)
    as (Hr & He & Hs & _).
  repeat split; assumption.
Defined.

Lemma load_config_returns_document_witness :
  let w := start quiet stored [] [] in
  let f := "/home/u/.EZVenv/ezvenv.yaml" in
  let text := "envDir: /opt/project" +:+ nl +:+ "envName: env" +:+ nl in
  let v := VDict (list_to_map [("envDir", VStr "/opt/project");
                               ("envName", VStr "env")]) in
  (os_exists (host quiet) (w_os w) f = true /\
   os_open_r (host quiet) (w_os w) f = None /\
   os_read (host quiet) (w_os w) f = inr text /\
   yaml_safe_load (host quiet) text = inr v) /\
  load_config (host quiet) f w =
    (Ret (if truthy v then v else VDict ∅),
     World (w_os w) (w_environ w) (w_stdin w)
       (w_trace w ++
        [EvParse f; EvLog INFO ("Configuration loaded from " +:+ f)])).
Proof.
  intros w f text v.
  assert (Hex : os_exists (host quiet) (w_os w) f = true)
    by (vm_compute; reflexivity).
  assert (Hop : os_open_r (host quiet) (w_os w) f = None)
    by (vm_compute; reflexivity).
  assert (Hrd : os_read (host quiet) (w_os w) f = inr text)
    by (vm_compute; reflexivity).
  assert (Hp : yaml_safe_load (host quiet) text = inr v)
    by (vm_compute; reflexivity).
  split; [split; [exact Hex | split; [exact Hop | split; [exact Hrd | exact Hp]]]|].
  apply (load_config_returns_document (host quiet) f text v w Hex Hop Hrd).
  right. split; [vm_compute; reflexivity | split; [vm_compute; reflexivity | exact Hp]].
Defined.

Lemma init_result_well_formed_witness :
  let w := start quiet stored [] [] in
  let r := EZVenv__init__ (host quiet) None None (Some "rel") None false true w in
  exists self,
    r.1 = Ret self /\
    envPath self = path_join (host quiet) [envDir self; "env"] /\
    envDir self = "/home/u/rel" /\
    py_ne_str (pkgManager self) "auto" = true /\
    autoActivate self = true.
Proof.
  intros w r.
  assert (Hr : exists self, r.1 = Ret self /\ envName self = VStr "env")
    by (vm_compute; eexists; split; reflexivity).
  destruct Hr as (self & Hr & Hname). exists self. split; [exact Hr|].
  destruct (init_result_well_formed (host quiet) None None (Some "rel") None
              false true w self Hr)
    as (m & n & _ & Hn & Hp & Hd & _ & Hne & Ha).
  assert (n = "env") by congruence. subst n.
  split; [exact Hp|]. split; [exact Hd|]. split; [exact Hne | exact Ha].
Defined.

Lemma init_rejects_non_mapping_witness :
  let w := start quiet scalar_config [] [] in
  let f := "/home/u/.EZVenv/ezvenv.yaml" in
  (load_config (host quiet) f w).1 = Ret (VStr "hello") /\
  exists msg,
    (EZVenv__init__ (host quiet) None None None None true true w).1
      = Raise (AttributeError msg).
Proof.
  intros w f.
  assert (Hl : (load_config (host quiet)
                  (default (path_join (host quiet)
                              [CONFIG_DIR (host quiet); "ezvenv.yaml"])
                           (arg_given None)) w).1 = Ret (VStr "hello"))
    by (vm_compute; reflexivity).
  split; [exact Hl|].
  apply (init_rejects_non_mapping (host quiet) None None None None true true w
           (VStr "hello") Hl).
  intros m; discriminate.
Defined.

Lemma init_rejects_non_string_name_witness :
  let w := start quiet boolean_name [] [] in
  let m : gmap string pyval := {[ "envName" := VBool true ]} in
  ((load_config (host quiet) "/home/u/.EZVenv/ezvenv.yaml" w).1 = Ret (VDict m) /\
   m !! "envName" = Some (VBool true)) /\
  exists msg,
    (EZVenv__init__ (host quiet) None None None None true true w).1
      = Raise (TypeError msg).
Proof.
  intros w m.
  assert (Hl : (load_config (host quiet)
                  (default (path_join (host quiet)
                              [CONFIG_DIR (host quiet); "ezvenv.yaml"])
                           (arg_given None)) w).1 = Ret (VDict m))
    by (vm_compute; reflexivity).
  assert (Hm : m !! "envName" = Some (VBool true)) by (vm_compute; reflexivity).
  split; [split; [exact Hl | exact Hm]|].
  apply (init_rejects_non_string_name (host quiet) None None None true true w
           m (VBool true) Hl Hm).
  intros s; discriminate.
Defined.









Lemma init_env_enters_without_prompt_witness :
  let w := start quiet empty_proj [] ["n"] in
  exists o2,
    os_chdir (host quiet) (w_os w) "proj" = inr o2 /\
    init_env (host quiet) None (Some "proj") None None false false w =
    init_env_environment_setup (host quiet) None None false false "proj"
      "/home/u/proj/ezvenv.yaml"
      (World o2 (w_environ w) (w_stdin w) (w_trace w ++ [EvChdir "proj"])).
Proof.
  intros w.
  assert (Hcd : exists o2, os_chdir (host quiet) (w_os w) "proj" = inr o2 /\
                  path_join (host quiet) [os_getcwd (host quiet) o2; "ezvenv.yaml"]
                    = "/home/u/proj/ezvenv.yaml")
    by (vm_compute; eexists; split; reflexivity).
  destruct Hcd as (o2 & Hcd & Hcfg). exists o2. split; [exact Hcd|].
  rewrite <- Hcfg.
  apply (init_env_enters_without_prompt (host quiet) None None false false w
           "proj");
    [vm_compute; discriminate | discriminate | vm_compute; reflexivity
    | vm_compute; reflexivity | exact Hcd].
Defined.



Lemma init_env_reentry_short_circuits_witness :
  let w := start quiet empty_proj [] [] in
  let r := init_env (host quiet) None (Some "proj") None None false true w in
  let python := "/home/u/proj/proj/.venv/bin/python" in
  let env : gmap string string := {[ "EZVENV_ALREADY_ACTIVATED" := "1" ]} in
  In (EvExec python [python; "ezvenv"; "init"] env) (w_trace r.2) /\
  forall w' : world (host quiet),
    w_environ w' = env ->
    (init_env (host quiet) None (Some "proj") None None false true w').1
      = Ret (os_getcwd (host quiet) (w_os w')).
Proof.
  intros w r python env.
  assert (Hin : In (EvExec python [python; "ezvenv"; "init"] env) (w_trace r.2)).
  { vm_compute. repeat (first [left; reflexivity | right]). }
  split; [exact Hin|].
  destruct (init_env_reentry_short_circuits (host quiet) None (Some "proj") None
              None false true w) as (evs & Ht & Hall).
  change (w_trace r.2 = evs) in Ht. rewrite Ht in Hin.
  intros w' Henv.
  rewrite (Hall _ _ _ Hin None (Some "proj") None None false true w' Henv).
  reflexivity.
Defined.



